(** * Course recommendation by similarity search

    A shallow embedding of [cosine_faiss_utils.py] and
    [recommender_agent.py]: price cleaning, loading the persisted
    index/table pair, the FAISS-backed search and the [CourseRecommender]
    facade; then the build of the two artifacts, the detailed display and
    the two scripts ([recommender_agent.main] and
    [test_system.test_system]).

    Conventions.
    - numpy [float32] values are the type [f32]: a finite value is the
      rational it denotes, and every arithmetic operation is the exact
      operation followed by IEEE 754 round-to-nearest-even into binary32
      (24-bit significand, exponents -126..127, gradual underflow,
      overflow to infinity).  Zero carries no sign.
    - Python integers are [Z]; a function that can raise returns a
      [result]; a function that prints returns the printed lines with it.
    - [faiss], [pandas] and the sentence transformer are libraries, not
      code of this repository.  The index is an interface ([Index]) with
      the flat L2 index as its instance; the text encoder and
      [np.linalg.norm] are parameters. *)

From Stdlib Require Import ZArith QArith Qround Qpower Lqa Lia.
From Stdlib Require Import List Bool String Ascii Sorted.
From Stdlib Require Import Floats.SpecFloat.
From Stdlib Require Import DecimalString.
Import ListNotations.

(* ================================================================== *)
(** * Binary32 arithmetic *)
(* ================================================================== *)

Module Binary32.

Open Scope Q_scope.

Inductive f32 : Type :=
| Fin (q : Q)
| PInf
| NInf
| NaN.

Definition pow2 (e : Z) : Q := (2 # 1) ^ e.

(** [ilog2 q] is the exponent of the binade of a positive rational:
    [2^(ilog2 q) <= q < 2^(ilog2 q + 1)]. *)
Definition ilog2 (q : Q) : Z :=
  let e0 := (Z.log2 (Qnum q) - Z.log2 (Zpos (Qden q)))%Z in
  if Qle_bool (pow2 e0) q then e0 else (e0 - 1)%Z.

(** Nearest integer, ties to even. *)
Definition rne (q : Q) : Z :=
  let f := Qfloor q in
  match Qcompare (q - inject_Z f) (1 # 2) with
  | Lt => f
  | Gt => (f + 1)%Z
  | Eq => if Z.even f then f else (f + 1)%Z
  end.

(** Exponent of the unit in the last place of the binade of [q];
    below [2^-126] the spacing stays [2^-149] (subnormal numbers). *)
Definition ulp_exp (q : Q) : Z := (Z.max (ilog2 q) (-126) - 23)%Z.

Definition round_mag (q : Q) : Q :=
  let u := pow2 (ulp_exp q) in inject_Z (rne (q / u)) * u.

(** Rounding of an exact result to binary32. *)
Definition rnd (q : Q) : f32 :=
  match Qcompare q 0 with
  | Eq => Fin 0
  | Gt => let r := round_mag q in
          if Qle_bool (pow2 128) r then PInf else Fin (Qred r)
  | Lt => let r := round_mag (- q) in
          if Qle_bool (pow2 128) r then NInf else Fin (Qred (- r))
  end.

(** Largest finite binary32 number, 3.4028235e38. *)
Definition FLT_MAX : Q := inject_Z (2 ^ 24 - 1) * pow2 104.

Definition f32_neg (a : f32) : f32 :=
  match a with
  | Fin x => Fin (- x)
  | PInf => NInf
  | NInf => PInf
  | NaN => NaN
  end.

Definition f32_add (a b : f32) : f32 :=
  match a, b with
  | NaN, _ | _, NaN => NaN
  | Fin x, Fin y => rnd (x + y)
  | PInf, NInf | NInf, PInf => NaN
  | PInf, _ | _, PInf => PInf
  | NInf, _ | _, NInf => NInf
  end.

Definition f32_sub (a b : f32) : f32 := f32_add a (f32_neg b).

(** Sign of a finite factor applied to an infinity. *)
Definition signed_inf (positive : bool) (x : Q) : f32 :=
  match Qcompare x 0 with
  | Eq => NaN
  | Gt => if positive then PInf else NInf
  | Lt => if positive then NInf else PInf
  end.

Definition f32_mul (a b : f32) : f32 :=
  match a, b with
  | NaN, _ | _, NaN => NaN
  | Fin x, Fin y => rnd (x * y)
  | Fin x, PInf | PInf, Fin x => signed_inf true x
  | Fin x, NInf | NInf, Fin x => signed_inf false x
  | PInf, PInf | NInf, NInf => PInf
  | PInf, NInf | NInf, PInf => NInf
  end.

Definition f32_div (a b : f32) : f32 :=
  match a, b with
  | NaN, _ | _, NaN => NaN
  | Fin x, Fin y =>
      match Qcompare y 0 with
      | Eq => signed_inf true x
      | _ => rnd (x / y)
      end
  | Fin _, _ => Fin 0
  | PInf, Fin y => if Qle_bool 0 y then PInf else NInf
  | NInf, Fin y => if Qle_bool 0 y then NInf else PInf
  | _, _ => NaN
  end.

(** Comparisons; every comparison with NaN is false. *)
Definition f32_leb (a b : f32) : bool :=
  match a, b with
  | NaN, _ | _, NaN => false
  | NInf, _ | _, PInf => true
  | Fin x, Fin y => Qle_bool x y
  | _, _ => false
  end.

Definition f32_ltb (a b : f32) : bool :=
  match a, b with
  | NaN, _ | _, NaN => false
  | PInf, _ | _, NInf => false
  | Fin x, Fin y => negb (Qle_bool y x)
  | _, _ => true
  end.

Definition f32_eqb (a b : f32) : bool := f32_leb a b && f32_leb b a.

Definition f32_le (a b : f32) : Prop := f32_leb a b = true.

(** Reading of a Standard Library [spec_float], used to compare [rnd]
    with the library's binary32 operations. *)
Definition of_spec_float (x : spec_float) : f32 :=
  match x with
  | S754_zero _ => Fin 0
  | S754_infinity s => if s then NInf else PInf
  | S754_nan => NaN
  | S754_finite s m e =>
      Fin (Qred ((if s then -1 else 1) * inject_Z (Zpos m) * pow2 e))
  end.

Definition b32 (m e : Z) : spec_float := binary_normalize 24 128 m e false.

Definition f32_same (a b : f32) : bool :=
  match a, b with
  | Fin x, Fin y => Qeq_bool x y
  | PInf, PInf | NInf, NInf | NaN, NaN => true
  | _, _ => false
  end.

(** The four operations on the floats [m1 * 2^e1] and [m2 * 2^e2]
    give what the library's binary32 operations give. *)
Definition agrees_with_library (p : (Z * Z) * (Z * Z)) : bool :=
  let '((m1, e1), (m2, e2)) := p in
  let a := b32 m1 e1 in
  let b := b32 m2 e2 in
  let x := of_spec_float a in
  let y := of_spec_float b in
  f32_same (of_spec_float (SFmul 24 128 a b)) (f32_mul x y) &&
  f32_same (of_spec_float (SFadd 24 128 a b)) (f32_add x y) &&
  f32_same (of_spec_float (SFsub 24 128 a b)) (f32_sub x y) &&
  f32_same (of_spec_float (SFdiv 24 128 a b)) (f32_div x y).

Definition agreement_samples : list ((Z * Z) * (Z * Z)) :=
  [
   ((8388608, (-149)), ((-10567679), 104)); ((8388608, 34), ((-16777215), (-149)));
   ((476, 104), ((-1), 18)); ((4261325, (-142)), (867, 96));
   ((3581964, 101), ((-1), 90)); (((-15482816), 97), (11443361, 92));
   ((8388608, (-149)), ((-5102709), (-49))); ((16597729, (-130)), ((-6478857), (-149)));
   ((10437933, 103), (158, 18)); (((-16777215), (-149)), ((-1316975), 104));
   ((16777215, (-16)), (16777215, 18)); (((-1), (-81)), (289, (-44)));
   ((1, (-16)), (487, 104)); ((1, (-149)), (1, 104));
   ((8388608, (-149)), ((-16777215), (-131))); ((8388608, 99), ((-16777215), (-149)));
   ((8069117, 104), (15442828, (-149))); ((928, (-121)), (11171933, 36));
   (((-598), (-115)), (973, (-3))); ((1, (-149)), ((-7591311), (-128)));
   ((1, 96), ((-788), 91)); ((1, (-51)), (7971566, 44));
   ((279, 6), (1, 104)); (((-8388608), (-149)), (515, 104));
   (((-12040370), (-140)), (4393671, (-149))); ((8388608, (-94)), (1, 104));
   ((1, 76), (16777215, 33)); (((-16777215), (-149)), (5107925, (-26)));
   (((-16777215), (-149)), ((-16777215), (-149))); (((-8388608), 95), (8388608, (-122)));
   ((1, (-56)), (291, 91)); ((16777215, 98), (8388608, 104));
   (((-16777215), 18), (1, (-139))); ((15481461, (-48)), (91, 104));
   ((1, 104), ((-841), (-149))); ((11503846, (-149)), (16777215, (-37)));
   (((-1), (-134)), (8388608, (-149))); (((-1), (-136)), (6210823, (-124)));
   ((1, (-149)), (599, 104)); (((-8388608), 95), (3045896, (-131)));
   ((1, (-141)), (8388608, 98)); ((10775424, (-149)), (243, 104));
   (((-101), (-149)), (16777215, 104)); ((1, 92), (8388608, 97));
   ((16777215, (-134)), (1, (-57))); ((717629, (-148)), (16777215, (-20)));
   ((490, 104), (7857616, 96)); ((1979123, (-45)), ((-16777215), 104))
  ]%Z.

End Binary32.

Export Binary32.

(* ================================================================== *)
(** * Python results, exceptions and standard output *)
(* ================================================================== *)

Inductive exn : Type :=
| AssertionError
| IndexError
| RuntimeError
| FileNotFoundError (filename : string)
| ParserError.

Inductive result (A : Type) : Type :=
| Ok (a : A)
| Raise (e : exn).

Arguments Ok {A} a.
Arguments Raise {A} e.

Definition rbind {A B} (r : result A) (f : A -> result B) : result B :=
  match r with
  | Ok a => f a
  | Raise e => Raise e
  end.

(** Lines written by [print]; the arguments are the values the source
    interpolates into the text. *)
Inductive msg : Type :=
| LoadedIndex (ntotal : Z)
    (* "Successfully loaded FAISS index with {index.ntotal} courses" *)
| RequiredFilesNotFound
    (* "Error: Required files not found. Please run ..." *)
| MissingFile (filename : string)
    (* "Missing file: {e.filename}" *)
| ErrorLoading (e : exn)
    (* "Error loading index or data: {str(e)}" *)
| IndexOrFrameIsNone
    (* "Error: Index or DataFrame is None" *)
| Initializing
    (* "Initializing Course Recommender..." *)
| WarnLoadFailed
    (* "Warning: Failed to load FAISS index or course data." *)
| PleaseCreateIndex
    (* "Please ensure that create_and_save_faiss_index() has been run first." *)
| InitializedWith (courses : Z)
    (* "Course Recommender initialized successfully with {len(self.df)} courses." *)
| NotProperlyInitialized
    (* "Error: Recommender not properly initialized. Cannot provide recommendations." *)
| Searching (query : string)
    (* "Searching for courses similar to: '{query}'" *)
| FoundRecommendations (n : Z)
    (* "Found {len(recommendations)} recommendations:" *)
| Hit (rank : Z) (title offered_by : string) (score : f32)
    (* "{i}. {course['Title']} by {course['Offered_by']} (Similarity: {score:.4f})" *)
| NoRecommendations.
    (* "No recommendations found." *)

(** A computation that prints and may raise: the lines printed so far
    and the outcome. *)
Definition io (A : Type) : Type := (list msg * result A)%type.

Definition ret {A} (a : A) : io A := ([], Ok a).

Definition bind {A B} (m : io A) (f : A -> io B) : io B :=
  match m with
  | (out, Ok a) => let (out', r) := f a in (out ++ out', r)
  | (out, Raise e) => (out, Raise e)
  end.

Definition print (m : msg) : io unit := ([m], Ok tt).

Definition lift {A} (r : result A) : io A := ([], r).

(** [try: body except FileNotFoundError as e: h1(e) except Exception as e: h2(e)] *)
Definition try_except {A} (body : io A)
    (on_file_not_found : string -> io A) (on_exception : exn -> io A) : io A :=
  match body with
  | (out, Ok a) => (out, Ok a)
  | (out, Raise (FileNotFoundError f)) =>
      let (out', r) := on_file_not_found f in (out ++ out', r)
  | (out, Raise e) =>
      let (out', r) := on_exception e in (out ++ out', r)
  end.

Definition stdout {A} (m : io A) : list msg := fst m.
Definition outcome {A} (m : io A) : result A := snd m.

Declare Scope io_scope.
Delimit Scope io_scope with io.
Notation "x <- m ;; k" := (bind m (fun x => k))
  (at level 61, m at next level, right associativity) : io_scope.
Notation "m ;; k" := (bind m (fun _ => k))
  (at level 61, right associativity) : io_scope.

(* ================================================================== *)
(** * The metadata table *)
(* ================================================================== *)

(** A row of [processed_courses.csv], as [df.iloc[i].to_dict()] gives it. *)
Record course : Type := {
  Title : string;
  Offered_by : string;
  Domain : string;
  Duration : string;
  Price : Q;
  combined_features : string
}.

Definition DataFrame : Type := list course.

Definition len {A} (l : list A) : Z := Z.of_nat (List.length l).

(** [df.iloc[i]]: positions count from the end when negative; outside
    [-len(df) .. len(df)-1] pandas raises [IndexError]. *)
Definition iloc (df : DataFrame) (i : Z) : result course :=
  let j := (if i <? 0 then len df + i else i)%Z in
  if (j <? 0)%Z then Raise IndexError
  else match nth_error df (Z.to_nat j) with
       | Some c => Ok c
       | None => Raise IndexError
       end.

(* ================================================================== *)
(** * Price cleaning ([create_and_save_faiss_index], lines 19-26) *)
(* ================================================================== *)

Module PriceCleaning.

Fixpoint remove_chars (cs : list ascii) (s : string) : string :=
  match s with
  | EmptyString => EmptyString
  | String c s' =>
      if existsb (Ascii.eqb c) cs then remove_chars cs s'
      else String c (remove_chars cs s')
  end.

(** The character class [[,/-]]: a comma, a slash or a hyphen. *)
Definition separators : list ascii := [","; "/"; "-"]%char.

(** [re.sub(r'[,/-]', '', x)]: every match of the class is deleted,
    wherever it stands. *)
Definition re_sub_price (x : string) : string :=
  remove_chars separators x.

(** ASCII characters for which [str.isspace] holds. *)
Definition isspace (c : ascii) : bool :=
  let n := nat_of_ascii c in
  ((9 <=? n) && (n <=? 13) || (28 <=? n) && (n <=? 32))%nat.

Fixpoint lstrip (s : string) : string :=
  match s with
  | String c s' => if isspace c then lstrip s' else s
  | EmptyString => EmptyString
  end.

Fixpoint rstrip (s : string) : string :=
  match s with
  | EmptyString => EmptyString
  | String c s' =>
      match rstrip s' with
      | EmptyString => if isspace c then EmptyString else String c EmptyString
      | r => String c r
      end
  end.

(** [x.strip()] *)
Definition strip (s : string) : string := rstrip (lstrip s).

(** The lambda of line 25. *)
Definition clean_price_text (x : string) : string := strip (re_sub_price x).

(** [.fillna(0)] on one coerced value: NaN becomes 0. *)
Definition fillna0 (v : option Q) : Q :=
  match v with
  | Some q => q
  | None => 0%Q
  end.

Section Coercion.

(** [pd.to_numeric(_, errors='coerce')] on one text: [None] is NaN. *)
Variable to_numeric : string -> option Q.

(** Lines 22-26 on one cell of the Price column; [None] is a null cell. *)
Definition clean_price (raw : option string) : Q :=
  let filled := match raw with Some x => x | None => "0"%string end in
  fillna0 (to_numeric (clean_price_text filled)).

(** The price derivation as the specification words it: thousands
    separators (commas) and a trailing "/-" are stripped, nothing else. *)
Definition remove_commas (x : string) : string := remove_chars [","%char] x.

Fixpoint strip_trailing_suffix (x : string) : string :=
  match x with
  | EmptyString => EmptyString
  | String c s' =>
      if String.eqb x "/-" then EmptyString
      else String c (strip_trailing_suffix s')
  end.

Definition spec_price (raw : option string) : Q :=
  match raw with
  | None => 0%Q
  | Some x => fillna0 (to_numeric (strip_trailing_suffix (remove_commas x)))
  end.

End Coercion.

(** Plain decimal literals, the fragment of the pandas parser the price
    column needs: a non-empty run of decimal digits denotes its value;
    any text holding another character is not in this fragment. *)
Definition digit_value (c : ascii) : option Z :=
  let n := nat_of_ascii c in
  if ((48 <=? n) && (n <=? 57))%nat then Some (Z.of_nat (n - 48)) else None.

Fixpoint parse_digits (acc : Z) (s : string) : option Z :=
  match s with
  | EmptyString => Some acc
  | String c s' =>
      match digit_value c with
      | Some v => parse_digits (10 * acc + v) s'
      | None => None
      end
  end.

Definition parse_decimal (s : string) : option Q :=
  match s with
  | EmptyString => None
  | _ => option_map inject_Z (parse_digits 0 s)
  end.

End PriceCleaning.

(* ================================================================== *)
(** * The nearest-neighbour index *)
(* ================================================================== *)

(** What the code uses of a loaded index object: [index.ntotal] and
    [index.search(x, k)] for a single query row, giving [distances[0]]
    and [indices[0]]. *)
Record Index : Type := {
  ntotal : Z;
  search : list f32 -> Z -> result (list f32 * list Z)
}.

(** The flat L2 index of faiss as the code meets it: exact search by
    squared Euclidean distance over the stored rows, an answer of
    exactly [k] entries in ascending order of (distance, position), and
    the label [-1] with distance [FLT_MAX] in the entries for which no
    row was found. *)
Module Faiss.

(** Squared Euclidean distance, accumulated left to right
    ([res += tmp * tmp] with [tmp = x[i] - y[i]]). *)
Definition fvec_L2sqr (x y : list f32) : f32 :=
  fold_left
    (fun res xy =>
       let tmp := f32_sub (fst xy) (snd xy) in f32_add res (f32_mul tmp tmp))
    (combine x y) (Fin 0).

(** Order of the result heap: by distance, equal distances by label. *)
Definition hit_leb (a b : f32 * Z) : bool :=
  f32_ltb (fst a) (fst b) || (f32_eqb (fst a) (fst b) && (snd a <=? snd b)%Z).

Definition hit_le (a b : f32 * Z) : Prop := hit_leb a b = true.

Fixpoint insert_hit (h : f32 * Z) (l : list (f32 * Z)) : list (f32 * Z) :=
  match l with
  | [] => [h]
  | h' :: t => if hit_leb h h' then h :: l else h' :: insert_hit h t
  end.

Definition sort_hits (l : list (f32 * Z)) : list (f32 * Z) :=
  fold_right insert_hit [] l.

(** [faiss.IndexFlatL2(d)] after [index.add(xb)]. *)
Record IndexFlatL2 : Type := {
  d : nat;
  xb : list (list f32)
}.

(** Every stored vector with its position. *)
Definition all_hits (ix : IndexFlatL2) (x : list f32) : list (f32 * Z) :=
  combine (map (fvec_L2sqr x) (xb ix))
          (map Z.of_nat (seq 0 (List.length (xb ix)))).

(** The [k] results for one query: a vector enters the result heap only
    when its distance is below the heap's initial value [FLT_MAX]; the
    heap is read out in ascending order; slots that were never filled
    keep distance [FLT_MAX] and label [-1]. *)
Definition knn (ix : IndexFlatL2) (x : list f32) (k : nat) : list (f32 * Z) :=
  let found :=
    firstn k
      (sort_hits (filter (fun h => f32_ltb (fst h) (Fin FLT_MAX)) (all_hits ix x))) in
  found ++ repeat (Fin FLT_MAX, (-1)%Z) (k - List.length found).

(** [index.search(x, k)] of the Python wrapper: it asserts the dimension
    of [x] and [k > 0]. *)
Definition IndexFlatL2_search (ix : IndexFlatL2) (x : list f32) (k : Z)
  : result (list f32 * list Z) :=
  if negb (List.length x =? d ix)%nat then Raise AssertionError
  else if negb (0 <? k)%Z then Raise AssertionError
  else let hits := knn ix x (Z.to_nat k) in
       Ok (map fst hits, map snd hits).

Definition as_index (ix : IndexFlatL2) : Index :=
  {| ntotal := len (xb ix); search := IndexFlatL2_search ix |}.

(** A hit that entered the result heap: its distance is finite, not
    negative and below [FLT_MAX]. *)
Definition accepted (h : f32 * Z) : Prop :=
  exists q, fst h = Fin q /\ (0 <= q)%Q /\ (q < FLT_MAX)%Q.

End Faiss.

(* ================================================================== *)
(** * [cosine_faiss_utils.py]: searching and loading *)
(* ================================================================== *)

(** Line 132: [(2 - distances[0] ** 2) / 2], on one distance. *)
Definition similarity (dist : f32) : f32 :=
  f32_div (f32_sub (Fin 2) (f32_mul dist dist)) (Fin 2).

(** The same formula on the Standard Library's binary32 operations. *)
Definition similarity_b32 (dist : spec_float) : spec_float :=
  SFdiv 24 128 (SFsub 24 128 (b32 2 0) (SFmul 24 128 dist dist)) (b32 2 0).

(** Scores that never increase along a list. *)
Definition non_increasing (scores : list f32) : Prop :=
  StronglySorted (fun s t => f32_le t s) scores.

(** Results with tied scores stand in ascending position order. *)
Definition ties_in_position_order (hits : list (Z * f32)) : Prop :=
  forall i j p q s t,
    (i < j)%nat ->
    nth_error hits i = Some (p, s) ->
    nth_error hits j = Some (q, t) ->
    f32_eqb s t = true ->
    (p <= q)%Z.

(** The conversion as the specification words it, on the squared
    distance [d2] the index returns: [cos = 1 - d2/2]. *)
Definition spec_cosine (d2 : f32) : f32 :=
  f32_sub (Fin 1) (f32_div d2 (Fin 2)).

(** Lines 135-139: the loop over [zip(indices[0], similarities)]. *)
Fixpoint prepare_results (df : DataFrame) (hits : list (Z * f32))
  : result (list (course * f32)) :=
  match hits with
  | [] => Ok []
  | (idx, sim) :: rest =>
      if (idx <? len df)%Z then
        rbind (iloc df idx) (fun c =>
        rbind (prepare_results df rest) (fun recommendations =>
        Ok ((c, sim) :: recommendations)))
      else prepare_results df rest
  end.

Section Search.

(** [SentenceTransformer('all-MiniLM-L6-v2').encode([query])[0]] *)
Variable encode : string -> list f32.
(** [np.linalg.norm] of one row *)
Variable norm : list f32 -> f32.

(** Line 125: the row divided by its norm. *)
Definition normalize (v : list f32) : list f32 :=
  map (fun c => f32_div c (norm v)) v.

(** [zip(indices[0], similarities)] for an index answer. *)
Definition scored_hits (answer : list f32 * list Z) : list (Z * f32) :=
  let (distances, indices) := answer in
  combine indices (map similarity distances).

Open Scope io_scope.

Definition search_faiss_index (query : string) (index : option Index)
    (df : option DataFrame) (top_k : Z) : io (list (course * f32)) :=
  match index, df with
  | Some index, Some df =>
      let query_embedding := normalize (encode query) in
      answer <- lift (search index query_embedding top_k) ;;
      lift (prepare_results df (scored_hits answer))
  | _, _ =>
      print IndexOrFrameIsNone ;;
      ret []
  end.

End Search.

(** A persisted artifact: absent, present but not readable, or holding
    a value. *)
Inductive file (A : Type) : Type :=
| Missing
| Unreadable
| Stored (a : A).

Arguments Missing {A}.
Arguments Unreadable {A}.
Arguments Stored {A} a.

Record disk : Type := {
  course_index_faiss : file Faiss.IndexFlatL2;
  processed_courses_csv : file DataFrame
}.

(** [faiss.read_index('course_index.faiss')]: any failure, a missing
    file included, is a [RuntimeError]. *)
Definition read_index (fs : disk) : result Index :=
  match course_index_faiss fs with
  | Stored ix => Ok (Faiss.as_index ix)
  | _ => Raise RuntimeError
  end.

(** [pd.read_csv('processed_courses.csv')] *)
Definition read_csv (fs : disk) : result DataFrame :=
  match processed_courses_csv fs with
  | Stored df => Ok df
  | Missing => Raise (FileNotFoundError "processed_courses.csv")
  | Unreadable => Raise ParserError
  end.

Definition load_faiss_index (fs : disk) : io (option Index * option DataFrame) :=
  try_except
    (index <- lift (read_index fs) ;;
     df <- lift (read_csv fs) ;;
     print (LoadedIndex (ntotal index)) ;;
     ret (Some index, Some df))%io
    (fun filename =>
       print RequiredFilesNotFound ;;
       print (MissingFile filename) ;;
       ret (None, None))%io
    (fun e =>
       print (ErrorLoading e) ;;
       ret (None, None))%io.

(* ================================================================== *)
(** * [recommender_agent.py]: the facade *)
(* ================================================================== *)

Definition is_None {A} (o : option A) : bool :=
  match o with
  | None => true
  | Some _ => false
  end.

Record CourseRecommender : Type := {
  index : option Index;
  df : option DataFrame
}.

Section Recommender.

Variable encode : string -> list f32.
Variable norm : list f32 -> f32.

Open Scope io_scope.

(** [CourseRecommender.__init__] *)
Definition init (fs : disk) : io CourseRecommender :=
  print Initializing ;;
  loaded <- load_faiss_index fs ;;
  let self := {| index := fst loaded; df := snd loaded |} in
  (if is_None (index self) || is_None (df self) then
     print WarnLoadFailed ;;
     print PleaseCreateIndex
   else
     print (InitializedWith (match df self with Some t => len t | None => 0%Z end))) ;;
  ret self.

Fixpoint print_hits (rank : Z) (recommendations : list (course * f32)) : io unit :=
  match recommendations with
  | [] => ret tt
  | (c, score) :: rest =>
      print (Hit rank (Title c) (Offered_by c) score) ;;
      print_hits (rank + 1) rest
  end.

Definition get_recommendations (self : CourseRecommender) (query : string)
    (top_k : Z) : io (list (course * f32)) :=
  if is_None (index self) || is_None (df self) then
    print NotProperlyInitialized ;;
    ret []
  else
    print (Searching query) ;;
    recommendations <- search_faiss_index encode norm query (index self) (df self) top_k ;;
    (match recommendations with
     | [] => print NoRecommendations
     | _ => print (FoundRecommendations (len recommendations)) ;;
            print_hits 1 recommendations
     end) ;;
    ret recommendations.

Definition is_ready (self : CourseRecommender) : bool :=
  negb (is_None (index self)) && negb (is_None (df self)).

End Recommender.

(* ================================================================== *)
(** * Sample data *)
(* ================================================================== *)

Module Samples.

Open Scope string_scope.

Definition python_course : course :=
  {| Title := "Intro to Python"; Offered_by := "Academy"; Domain := "IT";
     Duration := "4 hours"; Price := 1000%Q;
     combined_features := "Intro to Python Academy IT 4 hours 1000" |}.

Definition leadership_course : course :=
  {| Title := "Advanced Leadership"; Offered_by := "Institute";
     Domain := "Management"; Duration := "2 hours"; Price := 5000%Q;
     combined_features := "Advanced Leadership Institute Management 2 hours 5000" |}.

(** Rows of dimension 2; each is its own float32 normalisation. *)
Definition e1 : list f32 := [Fin 1; Fin 0].
Definition e2 : list f32 := [Fin 0; Fin 1].
Definition minus_e1 : list f32 := [Fin (-1); Fin 0].
Definition near_e1 : list f32 := [Fin 1; Fin (pow2 (-13))].

(** An encoder that maps every text to the row [e1], and the norm of
    the sample rows. *)
Definition encode_e1 : string -> list f32 := fun _ => e1.
Definition norm_one : list f32 -> f32 := fun _ => Fin 1.

Definition flat_index (rows : list (list f32)) : Faiss.IndexFlatL2 :=
  {| Faiss.d := 2; Faiss.xb := rows |}.

Definition loaded (rows : list (list f32)) : option Index :=
  Some (Faiss.as_index (flat_index rows)).

End Samples.


(* ================================================================== *)
(** * Finite rows *)
(* ================================================================== *)

(** A float32 value that is a number (neither infinite nor NaN). *)
Definition is_finite (a : f32) : bool :=
  match a with
  | Fin _ => true
  | _ => false
  end.

(* ================================================================== *)
(** * [create_and_save_faiss_index] *)
(* ================================================================== *)

Module Build.

Import PriceCleaning.

Open Scope string_scope.

(** A row of the course CSV as [pd.read_csv] gives it: [None] is a null
    cell, a text is the cell as [astype(str)] renders it. *)
Record raw_course : Type := {
  raw_Title : option string;
  raw_Offered_by : option string;
  raw_Domain : option string;
  raw_Duration : option string;
  raw_Price : option string
}.

(** Lines printed by [create_and_save_faiss_index]. *)
Inductive build_msg : Type :=
| LoadingCourseData        (* "Loading course data..." *)
| CleaningPriceData        (* "Cleaning price data..." *)
| CreatingCombinedFeatures (* "Creating combined features..." *)
| LoadingModel             (* "Loading sentence transformer model..." *)
| CreatingEmbeddings       (* "Creating embeddings..." *)
| CreatingIndex            (* "Creating FAISS index..." *)
| SavingIndex              (* "Saving FAISS index..." *)
| SavingData               (* "Saving processed data..." *)
| CreatedIndex (ntotal : Z)
    (* "Successfully created and saved FAISS index with {index.ntotal} courses" *)
| IndexDimension (dimension : nat).
    (* "Index dimension: {dimension}" *)

(** [.fillna('')] on one cell of a text column. *)
Definition fillna_empty (cell : option string) : string :=
  match cell with
  | Some s => s
  | None => ""
  end.

(** [pd.read_csv(df_path)] *)
Definition read_dataset (df_path : string) (csv : file (list raw_course))
  : result (list raw_course) :=
  match csv with
  | Stored rows => Ok rows
  | Missing => Raise (FileNotFoundError df_path)
  | Unreadable => Raise ParserError
  end.

Section Build.

(** [pd.to_numeric(_, errors='coerce')] on one text *)
Variable to_numeric : string -> option Q.
(** [df['Price'].astype(str)]: the numeric column rendered as texts (the
    rendering of a value depends on the type of the whole column) *)
Variable price_column_str : list Q -> list string.
(** [model.encode(texts)]: one row per text *)
Variable encode_batch : list string -> list (list f32).
(** [np.linalg.norm] of one row *)
Variable norm : list f32 -> f32.

(** Lines 22-26 on the Price column. *)
Definition clean_price_column (raw : list raw_course) : list Q :=
  map (fun r => clean_price to_numeric (raw_Price r)) raw.

(** Lines 29-42 on one row, given the text of its price. *)
Definition process_row (r : raw_course) (price : Q) (price_text : string)
  : course :=
  let title := fillna_empty (raw_Title r) in
  let offered_by := fillna_empty (raw_Offered_by r) in
  let domain := fillna_empty (raw_Domain r) in
  let duration := fillna_empty (raw_Duration r) in
  {| Title := title;
     Offered_by := offered_by;
     Domain := domain;
     Duration := duration;
     Price := price;
     combined_features :=
       title ++ " " ++ offered_by ++ " " ++ domain ++ " " ++ duration
             ++ " " ++ price_text |}.

Fixpoint process_rows (raw : list raw_course) (prices : list Q)
    (price_texts : list string) : DataFrame :=
  match raw, prices, price_texts with
  | r :: raw', p :: prices', t :: texts' =>
      process_row r p t :: process_rows raw' prices' texts'
  | _, _, _ => []
  end.

(** Lines 19-42: the processed table. *)
Definition process_table (raw : list raw_course) : DataFrame :=
  let prices := clean_price_column raw in
  process_rows raw prices (price_column_str prices).

(** Lines 50-61: the encoded, normalised rows and their dimension
    [embeddings.shape[1]].  The encoding of an empty list of texts is an
    empty one-dimensional array, on which the norm along axis 1 raises
    (numpy's [AxisError] is an [IndexError]). *)
Definition build_index (df : DataFrame) : result Faiss.IndexFlatL2 :=
  match encode_batch (map combined_features df) with
  | [] => Raise IndexError
  | row :: rows =>
      let embeddings := map (normalize norm) (row :: rows) in
      Ok {| Faiss.d := List.length row; Faiss.xb := embeddings |}
  end.

(** The function on the file at [df_path] and the artifacts on disk: the
    printed lines, the outcome and the artifacts afterwards.  Both
    artifacts are written at the end, after every computation. *)
Definition create_and_save_faiss_index (df_path : string)
    (csv : file (list raw_course)) (fs : disk)
  : list build_msg * (result unit * disk) :=
  match read_dataset df_path csv with
  | Raise e => ([LoadingCourseData], (Raise e, fs))
  | Ok raw =>
      let df := process_table raw in
      match build_index df with
      | Raise e =>
          ([LoadingCourseData; CleaningPriceData; CreatingCombinedFeatures;
            LoadingModel; CreatingEmbeddings],
           (Raise e, fs))
      | Ok ix =>
          ([LoadingCourseData; CleaningPriceData; CreatingCombinedFeatures;
            LoadingModel; CreatingEmbeddings; CreatingIndex; SavingIndex;
            SavingData; CreatedIndex (len (Faiss.xb ix));
            IndexDimension (Faiss.d ix)],
           (Ok tt,
            {| course_index_faiss := Stored ix;
               processed_courses_csv := Stored df |}))
      end
  end.

End Build.

End Build.

(* ================================================================== *)
(** * Sample data for the build *)
(* ================================================================== *)

Module BuildSamples.

Import Build Samples.

Open Scope string_scope.

Definition raw_python : raw_course :=
  {| raw_Title := Some "Intro to Python"; raw_Offered_by := Some "Academy";
     raw_Domain := Some "IT"; raw_Duration := None;
     raw_Price := Some "1,000/-" |}.

Definition raw_leadership : raw_course :=
  {| raw_Title := Some "Advanced Leadership"; raw_Offered_by := None;
     raw_Domain := Some "Management"; raw_Duration := Some "2 hours";
     raw_Price := Some "5000" |}.

(** An integer column rendered in decimal. *)
Definition render_int_column (prices : list Q) : list string :=
  map (fun q => NilZero.string_of_int (Z.to_int (Qnum q))) prices.

(** A batch encoder that maps every text to the row [e1]. *)
Definition encode_batch_e1 (texts : list string) : list (list f32) :=
  map (fun _ => e1) texts.

End BuildSamples.

(* ================================================================== *)
(** * [display_recommendation_details] *)
(* ================================================================== *)

Module Display.




End Display.

(* ================================================================== *)
(** * The scripts: [recommender_agent.main] and [test_system] *)
(* ================================================================== *)

Module Scripts.

Import Build.

Open Scope string_scope.
Open Scope list_scope.

(** Lines printed by [main] itself. *)
Inductive demo_msg : Type :=
| CreatingIndexFromData       (* "Creating FAISS index from course data..." *)
| DatasetMissing (path : string)
    (* "Error: {csv_path} not found in current directory." *)
| FailedExiting               (* "Failed to initialize the recommender. Exiting." *)
| DemoBlankRule               (* "\n" + "="*60 *)
| DemoHeading                 (* "COURSE RECOMMENDATION SYSTEM DEMO" *)
| DemoRule                    (* "="*60 *)
| QueryBlankRule              (* "\n" + "="*40 *)
| QueryIs (query : string)    (* "Query: '{query}'" *)
| QueryRule                   (* "="*40 *)
| TopThreeFor (query : string)
    (* "\nTop 3 recommendations for '{query}':" *)
| DemoHit (i : Z) (title offered_by : string) (score : f32) (price : Q)
    (* "{i}. {Title} by {Offered_by} (Score: {score:.4f}, Price: {Price})" *)
| DemoDashRule.               (* "-" * 60 *)

(** Lines printed by [test_system] itself. *)
Inductive test_msg : Type :=
| TestRule                    (* "="*60 *)
| TestTitle                   (* "FUTURESKILLS COURSE RECOMMENDER - SYSTEM TEST" *)
| DatasetNotFound (path : string)   (* "Error: {csv_path} not found!" *)
| PleaseEnsureDataset         (* "Please ensure the CSV file is in the current directory." *)
| FoundDataset (path : string)      (* "Found dataset: {csv_path}" *)
| CreatingFirstTime           (* "Creating FAISS index for the first time..." *)
| IndexCreated                (* "FAISS index created successfully!" *)
| ErrorCreating (e : exn)     (* "Error creating FAISS index: {e}" *)
| IndexAlreadyExists          (* "FAISS index already exists" *)
| InitializingRecommender     (* "Initializing recommender..." *)
| FailedToInitialize          (* "Failed to initialize recommender" *)
| RecommenderInitialized      (* "Recommender initialized successfully!" *)
| ErrorInitializing (e : exn) (* "Error initializing recommender: {e}" *)
| TestBlankRule               (* "\n" + "="*60 *)
| TestingHeading              (* "TESTING RECOMMENDATION FUNCTIONALITY" *)
| TestQuery (i : Z) (query : string)  (* "\nTest {i}: '{query}'" *)
| TestFound (n : Z)           (* "Found {len(recommendations)} recommendations" *)
| TestHit (j : Z) (title : string) (score : f32)
    (* "   {j}. {course['Title']} (Score: {score:.4f})" *)
| TestNoRecommendations       (* "No recommendations found" *)
| ErrorDuringSearch (e : exn) (* "Error during search: {e}" *)
| AllTestsPassed              (* "ALL TESTS PASSED! System is working correctly." *)
| ToRunWeb                    (* "\nTo run the web interface:" *)
| StreamlitCommand            (* "  streamlit run app.py" *)
| ToRunTests                  (* "\nTo run individual tests:" *)
| PythonCommand.              (* "  python recommender_agent.py" *)

(** Standard output of a script: its own lines and the lines of the
    functions it calls. *)
Inductive line : Type :=
| LibLine (m : msg)
| BuildLine (b : build_msg)
| DemoLine (m : demo_msg)
| TestLine (m : test_msg).

(** The files the scripts look at: the dataset and the two artifacts. *)
Record workspace : Type := {
  dataset : file (list raw_course);
  artifacts : disk
}.

(** [os.path.exists] *)
Definition exists_file {A} (f : file A) : bool :=
  match f with
  | Missing => false
  | _ => true
  end.

(** [not os.path.exists('course_index.faiss') or
     not os.path.exists('processed_courses.csv')] *)
Definition artifact_missing (fs : disk) : bool :=
  negb (exists_file (course_index_faiss fs))
  || negb (exists_file (processed_courses_csv fs)).

Definition csv_path : string := "FutureSkills Prime_data.csv".

Definition example_queries : list string :=
  ["artificial intelligence machine learning";
   "web development fullstack programming";
   "data science analytics";
   "communication skills leadership";
   "python programming"].

Definition test_queries : list string :=
  ["artificial intelligence";
   "web development";
   "data science";
   "python programming";
   "business communication"].


(** A search of the recommender that returns (a list, empty or not). *)
Definition returns {A} (m : io A) : Prop := exists a, outcome m = Ok a.

Section Scripts.

Variable to_numeric : string -> option Q.
Variable price_column_str : list Q -> list string.
Variable encode_batch : list string -> list (list f32).
Variable encode : string -> list f32.
Variable norm : list f32 -> f32.

(** ** [recommender_agent.main] *)

Fixpoint demo_hits (i : Z) (shown : list (course * f32)) : list line :=
  match shown with
  | [] => []
  | (c, score) :: rest =>
      DemoLine (DemoHit i (Title c) (Offered_by c) score (Price c))
      :: demo_hits (i + 1) rest
  end.

(** The loop over [example_queries]; an exception of
    [get_recommendations] ends it and is passed on. *)
Fixpoint demo_loop (recommender : CourseRecommender) (queries : list string)
  : list line * result unit :=
  match queries with
  | [] => ([], Ok tt)
  | query :: rest =>
      let head :=
        [DemoLine QueryBlankRule; DemoLine (QueryIs query); DemoLine QueryRule] in
      match get_recommendations encode norm recommender query 5 with
      | (out, Raise e) => (head ++ map LibLine out, Raise e)
      | (out, Ok recommendations) =>
          let shown :=
            match recommendations with
            | [] => []
            | _ => DemoLine (TopThreeFor query)
                   :: demo_hits 1 (firstn 3 recommendations)
            end in
          let (out', r) := demo_loop recommender rest in
          (head ++ map LibLine out ++ shown ++ [DemoLine DemoDashRule] ++ out', r)
      end
  end.

(** [main] from the construction of the recommender on. *)
Definition demo (fs : disk) : list line * result unit :=
  match init fs with
  | (out, Raise e) => (map LibLine out, Raise e)
  | (out, Ok recommender) =>
      if negb (is_ready recommender) then
        (map LibLine out ++ [DemoLine FailedExiting], Ok tt)
      else
        let (out', r) := demo_loop recommender example_queries in
        (map LibLine out
           ++ [DemoLine DemoBlankRule; DemoLine DemoHeading; DemoLine DemoRule]
           ++ out', r)
  end.

Definition main (ws : workspace)
  : list line * (result unit * workspace) :=
  if artifact_missing (artifacts ws) then
    if exists_file (dataset ws) then
      match create_and_save_faiss_index to_numeric price_column_str
              encode_batch norm csv_path (dataset ws) (artifacts ws) with
      | (out, (Raise e, fs)) =>
          (DemoLine CreatingIndexFromData :: map BuildLine out,
           (Raise e, {| dataset := dataset ws; artifacts := fs |}))
      | (out, (Ok _, fs)) =>
          let (out', r) := demo fs in
          (DemoLine CreatingIndexFromData :: map BuildLine out ++ out',
           (r, {| dataset := dataset ws; artifacts := fs |}))
      end
    else
      ([DemoLine CreatingIndexFromData; DemoLine (DatasetMissing csv_path)],
       (Ok tt, ws))
  else
    let (out, r) := demo (artifacts ws) in
    (out, (r, ws)).

(** ** [test_system] *)

Fixpoint test_hits (j : Z) (recommendations : list (course * f32)) : list line :=
  match recommendations with
  | [] => []
  | (c, score) :: rest =>
      TestLine (TestHit j (Title c) score) :: test_hits (j + 1) rest
  end.

(** The loop over [enumerate(test_queries, 1)]: [false] as soon as a
    search raises, [true] after the last query. *)
Fixpoint test_loop (recommender : CourseRecommender) (i : Z)
    (queries : list string) : list line * bool :=
  match queries with
  | [] => ([], true)
  | query :: rest =>
      match get_recommendations encode norm recommender query 3 with
      | (out, Raise e) =>
          (TestLine (TestQuery i query) :: map LibLine out
             ++ [TestLine (ErrorDuringSearch e)],
           false)
      | (out, Ok recommendations) =>
          let found :=
            match recommendations with
            | [] => [TestLine TestNoRecommendations]
            | _ => TestLine (TestFound (len recommendations))
                   :: test_hits 1 recommendations
            end in
          let (out', passed) := test_loop recommender (i + 1) rest in
          (TestLine (TestQuery i query) :: map LibLine out ++ found ++ out',
           passed)
      end
  end.

(** [test_system] from "Initializing recommender..." on. *)
Definition test_recommender (fs : disk) : list line * bool :=
  match init fs with
  | (out, Raise e) =>
      (TestLine InitializingRecommender :: map LibLine out
         ++ [TestLine (ErrorInitializing e)],
       false)
  | (out, Ok recommender) =>
      if negb (is_ready recommender) then
        (TestLine InitializingRecommender :: map LibLine out
           ++ [TestLine FailedToInitialize],
         false)
      else
        let (out', passed) := test_loop recommender 1 test_queries in
        (TestLine InitializingRecommender :: map LibLine out
           ++ [TestLine RecommenderInitialized;
               TestLine TestBlankRule; TestLine TestingHeading; TestLine TestRule]
           ++ out'
           ++ (if passed then
                 [TestLine TestBlankRule; TestLine AllTestsPassed; TestLine TestRule;
                  TestLine ToRunWeb; TestLine StreamlitCommand;
                  TestLine ToRunTests; TestLine PythonCommand]
               else []),
         passed)
  end.

Definition test_system (ws : workspace) : list line * (bool * workspace) :=
  let banner := [TestLine TestRule; TestLine TestTitle; TestLine TestRule] in
  if negb (exists_file (dataset ws)) then
    (banner ++ [TestLine (DatasetNotFound csv_path); TestLine PleaseEnsureDataset],
     (false, ws))
  else if artifact_missing (artifacts ws) then
    match create_and_save_faiss_index to_numeric price_column_str
            encode_batch norm csv_path (dataset ws) (artifacts ws) with
    | (out, (Raise e, fs)) =>
        (banner ++ [TestLine (FoundDataset csv_path); TestLine CreatingFirstTime]
           ++ map BuildLine out ++ [TestLine (ErrorCreating e)],
         (false, {| dataset := dataset ws; artifacts := fs |}))
    | (out, (Ok _, fs)) =>
        let (out', passed) := test_recommender fs in
        (banner ++ [TestLine (FoundDataset csv_path); TestLine CreatingFirstTime]
           ++ map BuildLine out ++ [TestLine IndexCreated] ++ out',
         (passed, {| dataset := dataset ws; artifacts := fs |}))
    end
  else
    let (out, passed) := test_recommender (artifacts ws) in
    (banner ++ [TestLine (FoundDataset csv_path); TestLine IndexAlreadyExists]
       ++ out,
     (passed, ws)).

End Scripts.

End Scripts.

(* ================================================================== *)
(** * Facts on binary32 rounding *)
(* ================================================================== *)

Module Binary32Facts.
Open Scope Q_scope.

Lemma pow2_pos e : 0 < pow2 e.
Proof. unfold pow2. apply Qpower_0_lt. reflexivity. Qed.

Lemma pow2_plus a b : pow2 (a + b) == pow2 a * pow2 b.
Proof. unfold pow2. apply Qpower_plus. discriminate. Qed.

Lemma pow2_le a b : (a <= b)%Z -> pow2 a <= pow2 b.
Proof. intro H. unfold pow2. apply Qpower_le_compat_l; [exact H | discriminate]. Qed.

Lemma pow2_inject n : (0 <= n)%Z -> pow2 n == inject_Z (2 ^ n).
Proof. intro H. unfold pow2. rewrite Zpower_Qpower by exact H. reflexivity. Qed.

Lemma pow2_lt_inv a b : pow2 a < pow2 b -> (a < b)%Z.
Proof.
  intro H. destruct (Z.ltb_spec a b) as [|Hge]; [assumption|].
  apply pow2_le in Hge. lra.
Qed.

(** ** Nearest-even rounding to an integer *)

Lemma rne_floor_cases q : rne q = Qfloor q \/ rne q = (Qfloor q + 1)%Z.
Proof.
  unfold rne. destruct (Qcompare _ _); try destruct (Z.even _); auto.
Qed.

Lemma rne_mono x y : x <= y -> (rne x <= rne y)%Z.
Proof.
  intro Hxy.
  pose proof (Qfloor_resp_le _ _ Hxy) as Hf.
  destruct (Z.eq_dec (Qfloor x) (Qfloor y)) as [E|N].
  - unfold rne. rewrite E.
    destruct (Qcompare_spec (x - inject_Z (Qfloor y)) (1 # 2)) as [H1|H1|H1];
    destruct (Qcompare_spec (y - inject_Z (Qfloor y)) (1 # 2)) as [H2|H2|H2];
    try destruct (Z.even (Qfloor y)); try lia; lra.
  - destruct (rne_floor_cases x) as [-> | ->];
    pose proof (rne_floor_cases y) as [-> | ->]; lia.
Qed.

Lemma rne_inject n : rne (inject_Z n) = n.
Proof.
  unfold rne. rewrite Qfloor_Z.
  destruct (Qcompare_spec (inject_Z n - inject_Z n) (1 # 2)) as [H|H|H]; try lra.
  reflexivity.
Qed.

Lemma rne_ge n x : inject_Z n <= x -> (n <= rne x)%Z.
Proof. intro H. rewrite <- (rne_inject n). apply rne_mono, H. Qed.

Lemma rne_le n x : x <= inject_Z n -> (rne x <= n)%Z.
Proof. intro H. rewrite <- (rne_inject n). apply rne_mono, H. Qed.

(** ** The binade of a positive rational *)

Lemma ilog2_spec q : 0 < q -> pow2 (ilog2 q) <= q < pow2 (ilog2 q + 1).
Proof.
  intro Hq. destruct q as [n dd]. 
  assert (Hn : (0 < n)%Z).
  { unfold Qlt in Hq. simpl in Hq. lia. }
  unfold ilog2. cbn [Qnum Qden].
  set (a := Z.log2 n). set (b := Z.log2 (Z.pos dd)).
  destruct (Z.log2_spec n Hn) as [Ha1 Ha2]. fold a in Ha1, Ha2.
  destruct (Z.log2_spec (Z.pos dd) eq_refl) as [Hb1 Hb2]. fold b in Hb1, Hb2.
  assert (Ha0 : (0 <= a)%Z) by apply Z.log2_nonneg.
  assert (Hb0 : (0 <= b)%Z) by apply Z.log2_nonneg.
  assert (Hq' : n # dd == inject_Z n / inject_Z (Z.pos dd)) by apply Qmake_Qdiv.
  assert (Hd : 0 < inject_Z (Z.pos dd)) by (unfold Qlt; simpl; lia).
  assert (Hmul : (n # dd) * inject_Z (Z.pos dd) == inject_Z n).
  { rewrite Hq'. field. lra. }
  assert (A1 : pow2 a <= inject_Z n).
  { rewrite pow2_inject by lia. rewrite <- Zle_Qle. lia. }
  assert (A2 : inject_Z n < pow2 (a + 1)).
  { rewrite pow2_inject by lia. rewrite <- Zlt_Qlt. unfold Z.succ in Ha2. lia. }
  assert (B1 : pow2 b <= inject_Z (Z.pos dd)).
  { rewrite pow2_inject by lia. rewrite <- Zle_Qle. lia. }
  assert (B2 : inject_Z (Z.pos dd) < pow2 (b + 1)).
  { rewrite pow2_inject by lia. rewrite <- Zlt_Qlt. unfold Z.succ in Hb2. lia. }
  pose proof (pow2_pos b) as Pb. pose proof (pow2_pos (a - b)) as Pab.
  pose proof (pow2_pos (a - b - 1)) as Pab1.
  assert (U : (n # dd) < pow2 (a - b + 1)).
  { assert (E : pow2 (a + 1) == pow2 (a - b + 1) * pow2 b).
    { rewrite <- pow2_plus. replace (a - b + 1 + b)%Z with (a + 1)%Z by lia. reflexivity. }
    pose proof (pow2_pos (a - b + 1)) as P.
    apply Qnot_le_lt. intro C.
    assert (pow2 (a - b + 1) * pow2 b <= (n # dd) * inject_Z (Z.pos dd)).
    { apply Qmult_le_compat_nonneg; split; lra. }
    lra. }
  assert (L : pow2 (a - b - 1) < (n # dd)).
  { assert (E : pow2 a == pow2 (a - b - 1) * pow2 (b + 1)).
    { rewrite <- pow2_plus. replace (a - b - 1 + (b + 1))%Z with a by lia. reflexivity. }
    apply Qnot_le_lt. intro C.
    pose proof (pow2_pos (b + 1)) as P.
    assert ((n # dd) * inject_Z (Z.pos dd) < pow2 (a - b - 1) * pow2 (b + 1)).
    { apply Qmult_le_lt_compat_pos; split; lra. }
    lra. }
  destruct (Qle_bool (pow2 (a - b)) (n # dd)) eqn:Hb.
  - apply Qle_bool_iff in Hb. split; [exact Hb | exact U].
  - assert (Hlt : (n # dd) < pow2 (a - b)).
    { apply Qnot_le_lt. intro C. apply Qle_bool_iff in C. congruence. }
    replace (a - b - 1 + 1)%Z with (a - b)%Z by lia.
    split; [lra | exact Hlt].
Qed.

Lemma ilog2_mono x y : 0 < x -> x <= y -> (ilog2 x <= ilog2 y)%Z.
Proof.
  intros Hx Hxy.
  destruct (ilog2_spec x Hx) as [X1 X2].
  destruct (ilog2_spec y) as [Y1 Y2]; [lra|].
  assert (pow2 (ilog2 x) < pow2 (ilog2 y + 1)) by lra.
  apply pow2_lt_inv in H. lia.
Qed.


(** ** Rounding of a positive magnitude *)

Lemma ulp_pos q : 0 < pow2 (ulp_exp q).
Proof. apply pow2_pos. Qed.

Lemma pow2_split e k : (0 <= k)%Z -> pow2 e == inject_Z (2 ^ k) * pow2 (e - k).
Proof.
  intro Hk. rewrite <- pow2_inject by exact Hk. rewrite <- pow2_plus.
  replace (k + (e - k))%Z with e by lia. reflexivity.
Qed.

Lemma round_mag_upper q :
  0 < q -> round_mag q <= pow2 (Z.max (ilog2 q) (-126) + 1).
Proof.
  intro Hq. unfold round_mag, ulp_exp.
  set (e := Z.max (ilog2 q) (-126)).
  set (u := pow2 (e - 23)).
  assert (Hu : 0 < u) by apply pow2_pos.
  assert (E : pow2 (e + 1) == inject_Z (2 ^ 24) * u).
  { rewrite (pow2_split (e + 1) 24) by lia.
    replace (e + 1 - 24)%Z with (e - 23)%Z by lia. reflexivity. }
  destruct (ilog2_spec q Hq) as [_ H2].
  assert (H3 : pow2 (ilog2 q + 1) <= pow2 (e + 1)) by (apply pow2_le; lia).
  apply Qle_trans with (inject_Z (2 ^ 24) * u).
  2:{ rewrite E. apply Qle_refl. }
  apply Qmult_le_compat_r; [|lra].
  rewrite <- Zle_Qle. apply rne_le.
  apply Qle_shift_div_r; [exact Hu|]. rewrite <- E. lra.
Qed.

Lemma round_mag_lower q :
  0 < q -> (-126 <= ilog2 q)%Z -> pow2 (ilog2 q) <= round_mag q.
Proof.
  intros Hq Hn. unfold round_mag, ulp_exp.
  rewrite Z.max_l by lia.
  set (e := ilog2 q).
  set (u := pow2 (e - 23)).
  assert (Hu : 0 < u) by apply pow2_pos.
  assert (E : pow2 e == inject_Z (2 ^ 23) * u) by (apply pow2_split; lia).
  destruct (ilog2_spec q Hq) as [H1 _]. fold e in H1.
  apply Qle_trans with (inject_Z (2 ^ 23) * u).
  { rewrite E. apply Qle_refl. }
  apply Qmult_le_compat_r; [|lra].
  rewrite <- Zle_Qle. apply rne_ge.
  apply Qle_shift_div_l; [exact Hu|]. rewrite <- E. exact H1.
Qed.

Lemma round_mag_nonneg q : 0 < q -> 0 <= round_mag q.
Proof.
  intro Hq. unfold round_mag.
  pose proof (ulp_pos q) as Hu.
  apply Qmult_le_0_compat; [|lra].
  change 0 with (inject_Z 0). rewrite <- Zle_Qle. apply rne_ge.
  apply Qle_shift_div_l; [exact Hu|].
  change (inject_Z 0) with 0. lra.
Qed.

Lemma round_mag_mono x y : 0 < x -> x <= y -> round_mag x <= round_mag y.
Proof.
  intros Hx Hxy.
  assert (Hy : 0 < y) by lra.
  pose proof (ilog2_mono x y Hx Hxy) as Hl.
  destruct (Z.eq_dec (Z.max (ilog2 x) (-126)) (Z.max (ilog2 y) (-126))) as [E|N].
  - unfold round_mag, ulp_exp. rewrite E.
    set (u := pow2 (Z.max (ilog2 y) (-126) - 23)).
    assert (Hu : 0 < u) by apply pow2_pos.
    apply Qmult_le_compat_r; [|lra].
    rewrite <- Zle_Qle. apply rne_mono.
    apply Qmult_le_compat_r; [exact Hxy|].
    apply Qlt_le_weak, Qinv_lt_0_compat, Hu.
  - assert (Hlt : (Z.max (ilog2 x) (-126) < ilog2 y)%Z) by lia.
    pose proof (round_mag_upper x Hx) as U.
    pose proof (round_mag_lower y Hy ltac:(lia)) as L.
    assert (pow2 (Z.max (ilog2 x) (-126) + 1) <= pow2 (ilog2 y)) by (apply pow2_le; lia).
    lra.
Qed.

(** ** Order on binary32 values *)

Lemma f32_le_Fin x y : f32_le (Fin x) (Fin y) <-> x <= y.
Proof. unfold f32_le. simpl. apply Qle_bool_iff. Qed.

Lemma f32_le_refl a : a <> NaN -> f32_le a a.
Proof.
  destruct a; intro H; try reflexivity; try congruence.
  apply f32_le_Fin. lra.
Qed.

Lemma f32_le_trans a b c : f32_le a b -> f32_le b c -> f32_le a c.
Proof.
  unfold f32_le. destruct a, b, c; simpl; try congruence.
  rewrite !Qle_bool_iff. intros; lra.
Qed.

Lemma f32_le_not_nan_l a b : f32_le a b -> a <> NaN.
Proof. unfold f32_le. destruct a, b; simpl; congruence. Qed.

Lemma f32_le_not_nan_r a b : f32_le a b -> b <> NaN.
Proof. unfold f32_le. destruct a, b; simpl; congruence. Qed.

Lemma f32_ltb_le a b : f32_ltb a b = true -> f32_le a b.
Proof.
  unfold f32_le. destruct a, b; simpl; try congruence.
  rewrite negb_true_iff. intro H. apply Qle_bool_iff.
  destruct (Qle_bool q0 q) eqn:E; [discriminate|].
  apply Qlt_le_weak, Qnot_le_lt. intro C. apply Qle_bool_iff in C. congruence.
Qed.

(** ** Rounding is monotone and never produces NaN *)

Lemma rnd_not_nan q : rnd q <> NaN.
Proof.
  unfold rnd. destruct (Qcompare q 0); try discriminate;
    destruct (Qle_bool _ _); discriminate.
Qed.

Lemma rnd_pos_cases q :
  0 < q ->
  (rnd q = PInf /\ pow2 128 <= round_mag q) \/
  (exists r, rnd q = Fin r /\ r == round_mag q /\ round_mag q < pow2 128).
Proof.
  intro Hq. unfold rnd.
  destruct (Qcompare_spec q 0) as [H|H|H]; try lra.
  destruct (Qle_bool (pow2 128) (round_mag q)) eqn:E.
  - left. split; [reflexivity|]. apply Qle_bool_iff, E.
  - right. exists (Qred (round_mag q)). split; [reflexivity|].
    split; [apply Qred_correct|].
    apply Qnot_le_lt. intro C. apply Qle_bool_iff in C. congruence.
Qed.

Lemma rnd_neg_cases q :
  q < 0 ->
  (rnd q = NInf /\ pow2 128 <= round_mag (- q)) \/
  (exists r, rnd q = Fin r /\ r == - round_mag (- q) /\ round_mag (- q) < pow2 128).
Proof.
  intro Hq. unfold rnd.
  destruct (Qcompare_spec q 0) as [H|H|H]; try lra.
  destruct (Qle_bool (pow2 128) (round_mag (- q))) eqn:E.
  - left. split; [reflexivity|]. apply Qle_bool_iff, E.
  - right. exists (Qred (- round_mag (- q))). split; [reflexivity|].
    split; [apply Qred_correct|].
    apply Qnot_le_lt. intro C. apply Qle_bool_iff in C. congruence.
Qed.

Lemma rnd_zero q : q == 0 -> rnd q = Fin 0.
Proof.
  intro H. unfold rnd. destruct (Qcompare_spec q 0) as [H'|H'|H']; try lra.
  reflexivity.
Qed.

Lemma rnd_mono x y : x <= y -> f32_le (rnd x) (rnd y).
Proof.
  intro Hxy.
  destruct (Qcompare_spec x 0) as [Hx|Hx|Hx];
  destruct (Qcompare_spec y 0) as [Hy|Hy|Hy]; try lra.
  - rewrite (rnd_zero x Hx), (rnd_zero y Hy). apply f32_le_Fin. lra.
  - rewrite (rnd_zero x Hx).
    pose proof (round_mag_nonneg y Hy).
    destruct (rnd_pos_cases y Hy) as [[-> _]|(r & -> & E & _)]; [reflexivity|].
    apply f32_le_Fin. lra.
  - rewrite (rnd_zero y Hy).
    pose proof (round_mag_nonneg (- x) ltac:(lra)).
    destruct (rnd_neg_cases x Hx) as [[-> _]|(r & -> & E & _)]; [reflexivity|].
    apply f32_le_Fin. lra.
  - pose proof (round_mag_mono (- y) (- x) ltac:(lra) ltac:(lra)) as M.
    destruct (rnd_neg_cases x Hx) as [[-> Ox]|(r & -> & E & Bx)];
    destruct (rnd_neg_cases y Hy) as [[-> Oy]|(r' & -> & E' & By)];
      try reflexivity; try lra.
    apply f32_le_Fin. lra.
  - pose proof (round_mag_nonneg y Hy).
    pose proof (round_mag_nonneg (- x) ltac:(lra)).
    destruct (rnd_neg_cases x Hx) as [[-> Ox]|(r & -> & E & Bx)];
    destruct (rnd_pos_cases y Hy) as [[-> Oy]|(r' & -> & E' & By)];
      try reflexivity.
    apply f32_le_Fin. lra.
  - pose proof (round_mag_mono x y Hx Hxy) as M.
    destruct (rnd_pos_cases x Hx) as [[-> Ox]|(r & -> & E & Bx)];
    destruct (rnd_pos_cases y Hy) as [[-> Oy]|(r' & -> & E' & By)];
      try reflexivity; try lra.
    apply f32_le_Fin. lra.
Qed.

Lemma rnd_nonneg q : 0 <= q -> f32_le (Fin 0) (rnd q).
Proof.
  intro H. rewrite <- (rnd_zero 0) by reflexivity. apply rnd_mono, H.
Qed.


(** ** Monotonicity of the operations of the score formula *)

Lemma f32_nonneg_cases a :
  f32_le (Fin 0) a -> (exists x, a = Fin x /\ 0 <= x) \/ a = PInf.
Proof.
  destruct a; unfold f32_le; simpl; try discriminate; auto.
  rewrite Qle_bool_iff. eauto.
Qed.

Lemma f32_le_PInf a : a <> NaN -> f32_le a PInf.
Proof. destruct a; intro; try reflexivity; congruence. Qed.

Lemma f32_NInf_le a : a <> NaN -> f32_le NInf a.
Proof. destruct a; intro; try reflexivity; congruence. Qed.

Lemma f32_mul_self_nonneg a : a <> NaN -> f32_le (Fin 0) (f32_mul a a).
Proof.
  destruct a as [x| | |]; intro H; try reflexivity; try congruence.
  simpl. apply rnd_nonneg. 
  destruct (Qlt_le_dec x 0); [|apply Qmult_le_0_compat; assumption].
  setoid_replace (x * x) with ((- x) * (- x)) by ring.
  apply Qmult_le_0_compat; lra.
Qed.

Lemma f32_mul_self_mono a b :
  f32_le (Fin 0) a -> f32_le a b -> f32_le (f32_mul a a) (f32_mul b b).
Proof.
  intros Ha Hab.
  destruct (f32_nonneg_cases a Ha) as [(x & -> & Hx)| ->].
  - destruct b as [y| | |]; try discriminate.
    + apply f32_le_Fin in Hab. simpl. apply rnd_mono.
      apply Qmult_le_compat_nonneg; split; lra.
    + simpl. apply f32_le_PInf, rnd_not_nan.
  - destruct b; try discriminate. reflexivity.
Qed.

Lemma f32_sub_antitone c a b :
  f32_le (Fin 0) a -> f32_le a b ->
  f32_le (f32_sub (Fin c) b) (f32_sub (Fin c) a).
Proof.
  intros Ha Hab.
  destruct (f32_nonneg_cases a Ha) as [(x & -> & Hx)| ->].
  - destruct b as [y| | |]; try discriminate.
    + apply f32_le_Fin in Hab. simpl. apply rnd_mono. lra.
    + simpl. apply f32_NInf_le, rnd_not_nan.
  - destruct b; try discriminate. reflexivity.
Qed.

Lemma f32_half_mono a b :
  f32_le a b -> f32_le (f32_div a (Fin 2)) (f32_div b (Fin 2)).
Proof.
  intro Hab. destruct a as [x| | |], b as [y| | |]; try discriminate;
    try reflexivity; simpl.
  - apply f32_le_Fin in Hab. apply rnd_mono.
    apply Qmult_le_compat_r; [exact Hab | discriminate].
  - apply f32_le_PInf, rnd_not_nan.
  - apply f32_NInf_le, rnd_not_nan.
Qed.

Lemma f32_add_nonneg a b :
  f32_le (Fin 0) a -> f32_le (Fin 0) b -> f32_le (Fin 0) (f32_add a b).
Proof.
  intros Ha Hb.
  destruct (f32_nonneg_cases a Ha) as [(x & -> & Hx)| ->];
  destruct (f32_nonneg_cases b Hb) as [(y & -> & Hy)| ->]; try reflexivity.
  simpl. apply rnd_nonneg. lra.
Qed.


Lemma similarity_antitone a b :
  f32_le (Fin 0) a -> f32_le a b -> f32_le (similarity b) (similarity a).
Proof.
  intros Ha Hab. unfold similarity.
  apply f32_half_mono, f32_sub_antitone.
  - apply f32_mul_self_nonneg. eapply f32_le_not_nan_r, Ha.
  - apply f32_mul_self_mono; assumption.
Qed.

End Binary32Facts.

Import Binary32Facts.

(** * Facts on lists *)

Lemma In_firstn {A} (a : A) n l : In a (firstn n l) -> In a l.
Proof.
  revert n. induction l as [|b l IH]; intros [|n]; simpl; try tauto.
  intros [H|H]; eauto.
Qed.

Section ListFacts.

Context {A : Type} (R : A -> A -> Prop).

Lemma StronglySorted_firstn n l :
  StronglySorted R l -> StronglySorted R (firstn n l).
Proof.
  revert n. induction l as [|a l IH]; intros [|n] H; simpl; try constructor.
  - apply IH. now inversion H.
  - inversion H; subst. rewrite Forall_forall in *.
    intros b Hb. apply H3. eapply In_firstn; eauto.
Qed.

Lemma StronglySorted_app l1 l2 :
  StronglySorted R l1 -> StronglySorted R l2 ->
  (forall a b, In a l1 -> In b l2 -> R a b) ->
  StronglySorted R (l1 ++ l2).
Proof.
  induction l1 as [|a l1 IH]; intros H1 H2 H; simpl; [exact H2|].
  inversion H1; subst. constructor.
  - apply IH; auto. intros; apply H; simpl; auto.
  - rewrite Forall_forall in *. intros b Hb.
    apply in_app_or in Hb as [Hb|Hb]; [auto | apply H; simpl; auto].
Qed.

Lemma StronglySorted_repeat a n : R a a -> StronglySorted R (repeat a n).
Proof.
  intro Ha. induction n; simpl; constructor; auto.
  rewrite Forall_forall. intros b Hb. apply repeat_spec in Hb. now subst.
Qed.

End ListFacts.


(** * Facts on the flat index *)

Module FaissFacts.

Import Faiss.
Open Scope Q_scope.

Lemma fvec_L2sqr_fold l acc :
  acc = NaN \/ f32_le (Fin 0) acc ->
  let r := fold_left
    (fun res xy =>
       let tmp := f32_sub (fst xy) (snd xy) in f32_add res (f32_mul tmp tmp))
    l acc in
  r = NaN \/ f32_le (Fin 0) r.
Proof.
  revert acc. induction l as [|[a b] l IH]; intros acc H; simpl; [exact H|].
  apply IH. destruct H as [-> | H]; [left; reflexivity|].
  destruct (f32_sub a b) eqn:E.
  - right. apply f32_add_nonneg; [exact H|]. apply f32_mul_self_nonneg. discriminate.
  - right. apply f32_add_nonneg; [exact H|]. reflexivity.
  - right. apply f32_add_nonneg; [exact H|]. reflexivity.
  - left. simpl. destruct acc; reflexivity.
Qed.

Lemma fvec_L2sqr_nonneg x y :
  fvec_L2sqr x y = NaN \/ f32_le (Fin 0) (fvec_L2sqr x y).
Proof. apply fvec_L2sqr_fold. right. reflexivity. Qed.

Lemma f32_ltb_Fin x y : f32_ltb (Fin x) (Fin y) = true <-> x < y.
Proof.
  simpl. rewrite negb_true_iff. split; intro H.
  - apply Qnot_le_lt. intro C. apply Qle_bool_iff in C. congruence.
  - destruct (Qle_bool y x) eqn:E; [|reflexivity].
    apply Qle_bool_iff in E. lra.
Qed.

Lemma In_all_hits ix x h :
  In h (all_hits ix x) ->
  (fst h = NaN \/ f32_le (Fin 0) (fst h)) /\ (0 <= snd h < len (xb ix))%Z.
Proof.
  destruct h as [dist i]. unfold all_hits. intro H. split.
  - apply in_combine_l in H. apply in_map_iff in H as (v & <- & _).
    apply fvec_L2sqr_nonneg.
  - apply in_combine_r in H. apply in_map_iff in H as (n & <- & Hn).
    apply in_seq in Hn. unfold len. simpl. lia.
Qed.

Lemma In_candidates ix x h :
  In h (filter (fun h => f32_ltb (fst h) (Fin FLT_MAX)) (all_hits ix x)) ->
  accepted h /\ (0 <= snd h < len (xb ix))%Z.
Proof.
  intro H. apply filter_In in H as [Hin Hlt].
  apply In_all_hits in Hin as [Hn Hi]. split; [|exact Hi].
  destruct Hn as [E|Hn]; [rewrite E in Hlt; discriminate|].
  destruct (f32_nonneg_cases _ Hn) as [(q & E & Hq)|E]; rewrite E in Hlt.
  - exists q. apply f32_ltb_Fin in Hlt. auto.
  - discriminate.
Qed.

(** ** The order of the result heap *)

Lemma hit_le_Fin x i y j :
  hit_le (Fin x, i) (Fin y, j) <-> x < y \/ (x == y /\ (i <= j)%Z).
Proof.
  unfold hit_le, hit_leb, f32_eqb. cbn [fst snd].
  rewrite orb_true_iff, !andb_true_iff, f32_ltb_Fin. simpl.
  rewrite !Qle_bool_iff, Z.leb_le. split.
  - intros [H|[[H1 H2] H3]]; [left; exact H | right; split; [lra | exact H3]].
  - intros [H|[H1 H2]]; [left; exact H | right; repeat split; try lra; exact H2].
Qed.

Lemma hit_le_total a b : accepted a -> accepted b -> hit_le a b \/ hit_le b a.
Proof.
  destruct a as [da i], b as [db j].
  intros (x & Ex & _) (y & Ey & _). simpl in Ex, Ey. subst.
  rewrite !hit_le_Fin.
  destruct (Q_dec x y) as [[H|H]|H]; [left; left; exact H | right; left; exact H |].
  destruct (Z.le_ge_cases i j); [left | right]; right; split; auto. lra.
Qed.

Lemma hit_le_trans a b c :
  accepted a -> accepted b -> accepted c ->
  hit_le a b -> hit_le b c -> hit_le a c.
Proof.
  destruct a as [da i], b as [db j], c as [dc k].
  intros (x & Ex & _) (y & Ey & _) (z & Ez & _). simpl in Ex, Ey, Ez. subst.
  rewrite !hit_le_Fin.
  intros [H1|[H1 H1']] [H2|[H2 H2']]; try (left; lra).
  right. split; [lra | lia].
Qed.

Lemma hit_le_dist a b : hit_le a b -> f32_le (fst a) (fst b).
Proof.
  unfold hit_le, hit_leb, f32_eqb.
  rewrite orb_true_iff, !andb_true_iff.
  intros [H|[[H _] _]]; [apply f32_ltb_le, H | exact H].
Qed.

Lemma In_insert_hit a h l : In a (insert_hit h l) <-> a = h \/ In a l.
Proof.
  induction l as [|b l IH]; simpl.
  - intuition congruence.
  - destruct (hit_leb h b); simpl; rewrite ?IH; intuition congruence.
Qed.

Lemma In_sort_hits a l : In a (sort_hits l) <-> In a l.
Proof.
  induction l as [|b l IH]; simpl; [tauto|].
  rewrite In_insert_hit, IH. intuition congruence.
Qed.

Lemma insert_hit_sorted h l :
  accepted h -> Forall accepted l ->
  StronglySorted hit_le l -> StronglySorted hit_le (insert_hit h l).
Proof.
  intros Hh Hl Hs. induction l as [|b l IH]; simpl.
  - constructor; constructor.
  - apply StronglySorted_inv in Hs as [Hs Hb].
    inversion Hl as [|? ? Ab Al]; subst.
    destruct (hit_leb h b) eqn:E.
    + constructor; [constructor; assumption|].
      constructor; [exact E|].
      rewrite Forall_forall in *. intros c Hc.
      apply (hit_le_trans h b c); auto.
    + constructor; [apply IH; assumption|].
      rewrite Forall_forall in *. intros c Hc.
      apply In_insert_hit in Hc as [-> | Hc]; [|auto].
      destruct (hit_le_total h b Hh Ab) as [C|C]; [|exact C].
      unfold hit_le in C. congruence.
Qed.

Lemma sort_hits_sorted l :
  Forall accepted l -> StronglySorted hit_le (sort_hits l).
Proof.
  induction l as [|h l IH]; intro H; simpl; [constructor|].
  inversion H as [|? ? Hh Hl]; subst.
  apply insert_hit_sorted; [exact Hh | | apply IH, Hl].
  rewrite Forall_forall in Hl |- *. intros a Ha.
  apply Hl, (proj1 (In_sort_hits a l)), Ha.
Qed.


(** ** The answer of the flat index *)

Lemma pad_le_pad : hit_le (Fin FLT_MAX, (-1)%Z) (Fin FLT_MAX, (-1)%Z).
Proof. reflexivity. Qed.

Lemma accepted_le_pad h : accepted h -> hit_le h (Fin FLT_MAX, (-1)%Z).
Proof.
  destruct h as [dist i]. intros (q & E & _ & Hq). simpl in E. subst.
  apply hit_le_Fin. left. exact Hq.
Qed.

Lemma In_found ix x k h :
  In h (firstn k (sort_hits (filter (fun h => f32_ltb (fst h) (Fin FLT_MAX))
                                    (all_hits ix x)))) ->
  accepted h /\ (0 <= snd h < len (xb ix))%Z.
Proof.
  intro H. apply (In_candidates ix x).
  apply (proj1 (In_sort_hits _ _)). exact (In_firstn h k _ H).
Qed.

Lemma knn_sorted ix x k : StronglySorted hit_le (knn ix x k).
Proof.
  unfold knn. apply StronglySorted_app.
  - apply StronglySorted_firstn, sort_hits_sorted.
    rewrite Forall_forall. intros h Hh. apply (In_candidates ix x h Hh).
  - apply StronglySorted_repeat, pad_le_pad.
  - intros a b Ha Hb. apply repeat_spec in Hb. subst b.
    apply accepted_le_pad. apply (In_found ix x k a Ha).
Qed.

Lemma knn_length ix x k : List.length (knn ix x k) = k.
Proof.
  unfold knn. rewrite length_app, repeat_length.
  set (found := firstn k _).
  assert (List.length found <= k)%nat by apply firstn_le_length.
  lia.
Qed.

Lemma In_knn ix x k h :
  In h (knn ix x k) ->
  f32_le (Fin 0) (fst h) /\ (-1 <= snd h < len (xb ix))%Z.
Proof.
  unfold knn. intro H. apply in_app_or in H as [H|H].
  - destruct (In_found ix x k h H) as [(q & E & Hq & _) Hi]. rewrite E. split; [|lia].
    apply f32_le_Fin, Hq.
  - apply repeat_spec in H. subst h. simpl. split; [reflexivity|].
    unfold len. lia.
Qed.

Lemma insert_hit_length h l :
  List.length (insert_hit h l) = S (List.length l).
Proof.
  induction l as [|b l IH]; simpl; [reflexivity|].
  destruct (hit_leb h b); simpl; [reflexivity | now rewrite IH].
Qed.

Lemma sort_hits_length l : List.length (sort_hits l) = List.length l.
Proof.
  induction l as [|h l IH]; simpl; [reflexivity|].
  now rewrite insert_hit_length, IH.
Qed.

Lemma all_hits_length ix x : List.length (all_hits ix x) = List.length (xb ix).
Proof.
  unfold all_hits. rewrite length_combine, !length_map, length_seq. lia.
Qed.

(** When more results are requested than vectors are stored, the answer
    holds a slot that was never filled. *)
Lemma knn_pads ix x k :
  (List.length (xb ix) < k)%nat -> In (Fin FLT_MAX, (-1)%Z) (knn ix x k).
Proof.
  intro Hk. unfold knn. apply in_or_app. right.
  set (cands := filter _ (all_hits ix x)).
  assert (Hc : (List.length cands <= List.length (xb ix))%nat).
  { unfold cands. rewrite <- (all_hits_length ix x). apply filter_length_le. }
  assert (Hf : (List.length (firstn k (sort_hits cands)) <= List.length (xb ix))%nat).
  { rewrite length_firstn, sort_hits_length. lia. }
  destruct (k - List.length (firstn k (sort_hits cands)))%nat as [|n] eqn:E; [lia|].
  simpl. left. reflexivity.
Qed.

Lemma search_ok ix x k :
  List.length x = d ix -> (0 < k)%Z ->
  IndexFlatL2_search ix x k =
    Ok (map fst (knn ix x (Z.to_nat k)), map snd (knn ix x (Z.to_nat k))).
Proof.
  intros Hd Hk. unfold IndexFlatL2_search.
  rewrite (proj2 (Nat.eqb_eq _ _) Hd), (proj2 (Z.ltb_lt _ _) Hk). reflexivity.
Qed.

Lemma search_rejects ix x k :
  (k <= 0)%Z -> IndexFlatL2_search ix x k = Raise AssertionError.
Proof.
  intro Hk. unfold IndexFlatL2_search.
  destruct (negb (List.length x =? d ix)%nat); [reflexivity|].
  rewrite (proj2 (Z.ltb_ge _ _) Hk). reflexivity.
Qed.

End FaissFacts.

(** * Facts on the result loop *)

Module SearchFacts.

Import FaissFacts.

Lemma scored_hits_map (hits : list (f32 * Z)) :
  scored_hits (map fst hits, map snd hits) =
  map (fun h => (snd h, similarity (fst h))) hits.
Proof.
  unfold scored_hits. induction hits as [|h hits IH]; simpl; [reflexivity|].
  now rewrite IH.
Qed.

Lemma len_pos_nonempty {A} (l : list A) : (0 < len l)%Z -> l <> [].
Proof. intros H E. subst. unfold len in H. simpl in H. lia. Qed.

Lemma iloc_nth (df : DataFrame) i :
  (0 <= i < len df)%Z -> exists c, iloc df i = Ok c /\ nth_error df (Z.to_nat i) = Some c.
Proof.
  intro H. unfold iloc.
  rewrite (proj2 (Z.ltb_ge i 0)) by lia. cbv beta iota zeta.
  rewrite (proj2 (Z.ltb_ge i 0)) by lia.
  destruct (nth_error df (Z.to_nat i)) as [c|] eqn:E; [eauto|].
  apply nth_error_None in E. unfold len in H. lia.
Qed.

Lemma iloc_last (df : DataFrame) :
  df <> [] ->
  exists c, iloc df (-1) = Ok c /\ nth_error df (List.length df - 1) = Some c.
Proof.
  intro H. unfold iloc. change (-1 <? 0)%Z with true. cbv beta iota zeta.
  assert (Hl : (1 <= len df)%Z).
  { unfold len. destruct df; [congruence | simpl; lia]. }
  rewrite (proj2 (Z.ltb_ge (len df + -1) 0)) by lia.
  replace (Z.to_nat (len df + -1)) with (List.length df - 1)%nat
    by (unfold len; lia).
  destruct (nth_error df (List.length df - 1)) as [c|] eqn:E; [eauto|].
  apply nth_error_None in E. unfold len in Hl. lia.
Qed.

Lemma iloc_ok (df : DataFrame) i :
  df <> [] -> (-1 <= i < len df)%Z -> exists c, iloc df i = Ok c.
Proof.
  intros Hdf H. destruct (Z.eq_dec i (-1)) as [-> | N].
  - destruct (iloc_last df Hdf) as (c & E & _). eauto.
  - destruct (iloc_nth df i) as (c & E & _); [lia | eauto].
Qed.

(** The loop returns when every label is at least [-1]. *)
Lemma prepare_results_returns df hits :
  df <> [] ->
  Forall (fun h => (-1 <= fst h)%Z) hits ->
  exists res, prepare_results df hits = Ok res.
Proof.
  intro Hdf. induction hits as [|[idx sim] hits IH]; intro H; simpl; [eauto|].
  inversion H as [|? ? Hi Hr]; subst. simpl in Hi.
  destruct (IH Hr) as (res & E). rewrite E.
  destruct (Z.ltb_spec idx (len df)); [|eauto].
  destruct (iloc_ok df idx Hdf) as (c & ->); [lia|]. simpl. eauto.
Qed.

(** Every returned score is a score of a hit, in the same order. *)
Lemma prepare_results_In df hits res :
  prepare_results df hits = Ok res ->
  forall s, In s (map snd res) -> In s (map snd hits).
Proof.
  revert res. induction hits as [|[idx sim] hits IH]; intros res H s Hs; simpl in *.
  - injection H as <-. exact Hs.
  - destruct (idx <? len df)%Z.
    + destruct (iloc df idx) as [c|]; [|discriminate]. simpl in H.
      destruct (prepare_results df hits) as [r|]; [|discriminate]. simpl in H.
      injection H as <-. simpl in Hs. destruct Hs as [Hs|Hs]; [auto|].
      right. eapply IH; eauto.
    + right. eapply IH; eauto.
Qed.

Lemma prepare_results_sorted (R : f32 -> f32 -> Prop) df hits res :
  prepare_results df hits = Ok res ->
  StronglySorted R (map snd hits) -> StronglySorted R (map snd res).
Proof.
  revert res. induction hits as [|[idx sim] hits IH]; intros res H Hs; simpl in *.
  - injection H as <-. constructor.
  - apply StronglySorted_inv in Hs as [Hs Hh].
    destruct (idx <? len df)%Z; [|eauto].
    destruct (iloc df idx) as [c|]; [|discriminate]. simpl in H.
    destruct (prepare_results df hits) as [r|] eqn:E; [|discriminate]. simpl in H.
    injection H as <-. simpl. constructor; [eauto|].
    rewrite Forall_forall in *. intros s Hin. apply Hh.
    eapply prepare_results_In; eauto.
Qed.

(** When every label addresses the table, every hit is kept. *)
Lemma prepare_results_all df hits :
  df <> [] ->
  Forall (fun h => (-1 <= fst h < len df)%Z) hits ->
  exists res, prepare_results df hits = Ok res /\ map snd res = map snd hits.
Proof.
  intro Hdf. induction hits as [|[idx sim] hits IH]; intro H; simpl; [eauto|].
  inversion H as [|? ? Hi Hr]; subst. simpl in Hi.
  destruct (IH Hr) as (res & E & Em). rewrite E.
  rewrite (proj2 (Z.ltb_lt idx (len df))) by lia.
  destruct (iloc_ok df idx Hdf) as (c & ->); [lia|]. simpl.
  eexists. split; [reflexivity|]. simpl. now rewrite Em.
Qed.

(** A hit labelled [-1] is paired with the last row of the table. *)
Lemma prepare_results_sentinel df hits sim :
  df <> [] ->
  Forall (fun h => (-1 <= fst h)%Z) hits ->
  In ((-1)%Z, sim) hits ->
  exists res c,
    prepare_results df hits = Ok res /\
    nth_error df (List.length df - 1) = Some c /\
    In (c, sim) res.
Proof.
  intros Hdf. induction hits as [|[idx s] hits IH]; intros H Hin; [destruct Hin|].
  inversion H as [|? ? Hi Hr]; subst. simpl in Hi.
  destruct (prepare_results_returns df hits Hdf Hr) as (r & Er).
  destruct (iloc_last df Hdf) as (c & Ec & En).
  assert (Hl : (1 <= len df)%Z).
  { unfold len. destruct df; [congruence | simpl; lia]. }
  simpl. rewrite Er.
  destruct Hin as [Hin|Hin].
  - injection Hin as -> ->.
    rewrite (proj2 (Z.ltb_lt (-1) (len df))) by lia.
    rewrite Ec. simpl. exists ((c, sim) :: r), c. simpl. auto.
  - destruct (IH Hr Hin) as (res & c' & E & En' & Hc).
    rewrite Er in E. injection E as <-.
    destruct (Z.ltb_spec idx (len df)).
    + destruct (iloc_ok df idx Hdf) as (c0 & ->); [lia|]. simpl.
      exists ((c0, s) :: r), c'. simpl. auto.
    + exists r, c'. auto.
Qed.

Section Search.

Variable encode : string -> list f32.
Variable norm : list f32 -> f32.

Lemma normalize_length v : List.length (normalize norm v) = List.length v.
Proof. unfold normalize. apply length_map. Qed.

Lemma search_faiss_index_loaded query index df k :
  search_faiss_index encode norm query (Some index) (Some df) k =
  match search index (normalize norm (encode query)) k with
  | Ok answer => ([], prepare_results df (scored_hits answer))
  | Raise e => ([], Raise e)
  end.
Proof.
  unfold search_faiss_index, bind, lift.
  destruct (search index _ k); reflexivity.
Qed.

End Search.

End SearchFacts.

(* ================================================================== *)
(** * The model against the library's binary32 *)
(* ================================================================== *)

Module Binary32Checks.

Example operations_agree_on_samples :
  forallb agrees_with_library agreement_samples = true.
Proof. vm_compute. reflexivity. Qed.

Example rnd_agrees_division :
  of_spec_float (SFdiv 24 128 (b32 1 0) (b32 3 0)) = f32_div (Fin 1) (Fin 3).
Proof. vm_compute. reflexivity. Qed.

Example rnd_agrees_subnormal :
  of_spec_float (SFmul 24 128 (b32 1 (-120)) (b32 3 (-28))) =
  f32_mul (Fin (pow2 (-120))) (Fin (3 * pow2 (-28))).
Proof. vm_compute. reflexivity. Qed.

Example rnd_agrees_overflow :
  of_spec_float (SFadd 24 128 (b32 (2 ^ 24 - 1) 104) (b32 1 103)) =
  f32_add (Fin FLT_MAX) (Fin (pow2 103)).
Proof. vm_compute. reflexivity. Qed.

Example rnd_agrees_below_overflow :
  of_spec_float (SFadd 24 128 (b32 (2 ^ 24 - 1) 104) (b32 1 102)) =
  f32_add (Fin FLT_MAX) (Fin (pow2 102)).
Proof. vm_compute. reflexivity. Qed.

Example similarity_agrees_at_zero :
  of_spec_float (similarity_b32 (b32 0 0)) = similarity (Fin 0).
Proof. vm_compute. reflexivity. Qed.

Example similarity_agrees_near_zero :
  of_spec_float (similarity_b32 (b32 1 (-26))) = similarity (Fin (pow2 (-26))).
Proof. vm_compute. reflexivity. Qed.

Example similarity_agrees_at_two :
  of_spec_float (similarity_b32 (b32 2 0)) = similarity (Fin 2).
Proof. vm_compute. reflexivity. Qed.

Example similarity_agrees_at_four :
  of_spec_float (similarity_b32 (b32 4 0)) = similarity (Fin 4).
Proof. vm_compute. reflexivity. Qed.

Example similarity_agrees_at_FLT_MAX :
  of_spec_float (similarity_b32 (b32 (2 ^ 24 - 1) 104)) = similarity (Fin FLT_MAX).
Proof. vm_compute. reflexivity. Qed.

End Binary32Checks.

(* ================================================================== *)
(** * The search operation *)
(* ================================================================== *)

Module SearchClaims.

Import Faiss FaissFacts SearchFacts Samples.

Lemma nth_error_combine {A B} (l1 : list A) (l2 : list B) j a b :
  nth_error l1 j = Some a -> nth_error l2 j = Some b ->
  nth_error (combine l1 l2) j = Some (a, b).
Proof.
  revert l2 j. induction l1 as [|x l1 IH]; intros [|y l2] [|j]; simpl;
    try discriminate.
  - now intros [= ->] [= ->].
  - apply IH.
Qed.

Lemma knn_labels ix x k (df : DataFrame) :
  len df = len (xb ix) ->
  Forall (fun h : Z * f32 => (-1 <= fst h < len df)%Z)
         (map (fun h => (snd h, similarity (fst h))) (knn ix x k)).
Proof.
  intro E. rewrite Forall_forall. intros h Hh.
  apply in_map_iff in Hh as (h0 & <- & Hin). simpl.
  rewrite E. apply (In_knn ix x k h0 Hin).
Qed.

Lemma knn_scores_non_increasing ix x k :
  non_increasing (map snd (map (fun h : f32 * Z => (snd h, similarity (fst h)))
                               (knn ix x k))).
Proof.
  rewrite map_map. simpl.
  pose proof (knn_sorted ix x k) as Hs.
  assert (Hn : Forall (fun h => f32_le (Fin 0) (fst h)) (knn ix x k)).
  { rewrite Forall_forall. intros h Hh. apply (In_knn ix x k h Hh). }
  induction Hs as [|h l Hs IH Hh]; simpl; [constructor|].
  inversion Hn as [|? ? Hh0 Hl0]; subst.
  constructor; [apply IH, Hl0|].
  rewrite Forall_forall in *. intros s Hin.
  apply in_map_iff in Hin as (h' & <- & Hin').
  apply Binary32Facts.similarity_antitone; [exact Hh0|].
  apply hit_le_dist, Hh, Hin'.
Qed.

(** C1 (the code departs from the claim).  The index reports squared
    distances, and line 132 squares the reported value once more before
    the conversion: for a stored row orthogonal to the query the index
    reports the squared distance 2 and the returned score is
    (2 - 2*2)/2 = -1, where the closed form 1 - d2/2 of the claim gives
    the cosine 0. *)
Theorem orthogonal_row_scores_minus_one :
  IndexFlatL2_search (flat_index [e2]) (normalize norm_one (encode_e1 "python")) 1
    = Ok ([Fin 2], [0%Z]) /\
  outcome (search_faiss_index encode_e1 norm_one "python"
             (loaded [e2]) (Some [python_course]) 1)
    = Ok [(python_course, Fin (-1))] /\
  spec_cosine (Fin 2) = Fin 0.
Proof. vm_compute. repeat split; reflexivity. Qed.

(** C4 (the code departs from the claim).  For a stored row opposite to
    the query the index reports the squared distance 4 and the returned
    score is (2 - 4*4)/2 = -7, below -1 - 1e-5; the closed form of the
    specification gives -1 there. *)
Theorem opposite_row_scores_minus_seven :
  IndexFlatL2_search (flat_index [minus_e1]) (normalize norm_one (encode_e1 "python")) 1
    = Ok ([Fin 4], [0%Z]) /\
  outcome (search_faiss_index encode_e1 norm_one "python"
             (loaded [minus_e1]) (Some [python_course]) 1)
    = Ok [(python_course, Fin (-7))] /\
  f32_ltb (Fin (-7)) (Fin (-1 - (1 # 100000))) = true /\
  spec_cosine (Fin 4) = Fin (-1).
Proof. vm_compute. repeat split; reflexivity. Qed.

(** Over a non-empty table aligned with the flat index every hit of the
    answer is kept, and its score is [similarity] of the distance the
    index reported for it. *)
Lemma aligned_search_scores
    (encode : string -> list f32) (norm : list f32 -> f32)
    (query : string) (ix : IndexFlatL2) (df : DataFrame) (k : Z) :
  (0 < len df)%Z ->
  len df = len (xb ix) ->
  (0 < k)%Z ->
  List.length (encode query) = d ix ->
  exists distances indices res,
    IndexFlatL2_search ix (normalize norm (encode query)) k
      = Ok (distances, indices) /\
    List.length distances = Z.to_nat k /\
    outcome (search_faiss_index encode norm query
               (Some (as_index ix)) (Some df) k) = Ok res /\
    map snd res = map similarity distances.
Proof.
  intros Hpos Hal Hk Hd.
  pose proof (len_pos_nonempty df Hpos) as Hdf.
  set (x := normalize norm (encode query)).
  assert (Hx : List.length x = d ix) by (unfold x; rewrite normalize_length; exact Hd).
  destruct (prepare_results_all df _ Hdf (knn_labels ix x (Z.to_nat k) df Hal))
    as (res & E & Em).
  exists (map fst (knn ix x (Z.to_nat k))), (map snd (knn ix x (Z.to_nat k))), res.
  split; [apply search_ok; assumption|].
  split; [now rewrite length_map, knn_length|].
  split.
  - rewrite search_faiss_index_loaded. cbn [search as_index]. fold x.
    rewrite search_ok by assumption. rewrite scored_hits_map. exact E.
  - rewrite Em, !map_map. reflexivity.
Qed.

(** C2 (the code departs from the claim).  Over a non-empty table
    aligned with the flat index, a request for more results than there
    are rows returns [k] results, not N: the index pads its answer with
    the label -1, and the filter [idx < len(df)] keeps those entries. *)
Theorem search_returns_k_results_beyond_corpus
    (encode : string -> list f32) (norm : list f32 -> f32)
    (query : string) (ix : IndexFlatL2) (df : DataFrame) (k : Z) :
  (0 < len df)%Z ->
  len df = len (xb ix) ->
  (len df < k)%Z ->
  List.length (encode query) = d ix ->
  exists res,
    outcome (search_faiss_index encode norm query
               (Some (as_index ix)) (Some df) k) = Ok res /\
    len res = k.
Proof.
  intros Hpos Hal Hk Hd.
  destruct (aligned_search_scores encode norm query ix df k Hpos Hal ltac:(lia) Hd)
    as (distances & indices & res & _ & Hl & E & Em).
  exists res. split; [exact E|].
  apply (f_equal (@List.length f32)) in Em.
  rewrite !length_map in Em. unfold len. lia.
Qed.

Lemma search_returns_k_results_beyond_corpus_witness :
  (0 < len [python_course])%Z /\
  len [python_course] = len (xb (flat_index [e2])) /\
  (len [python_course] < 2)%Z /\
  exists res,
    outcome (search_faiss_index encode_e1 norm_one "python"
               (Some (as_index (flat_index [e2]))) (Some [python_course]) 2)
      = Ok res /\
    len res = 2%Z.
Proof.
  split; [reflexivity|]. split; [reflexivity|]. split; [reflexivity|].
  apply (search_returns_k_results_beyond_corpus encode_e1 norm_one "python"
           (flat_index [e2]) [python_course] 2);
    reflexivity.
Defined.

(** The run behind C2 and C10: one stored row, two results requested. *)
Example one_row_two_results :
  search_faiss_index encode_e1 norm_one "python"
    (loaded [e2]) (Some [python_course]) 2
  = ([], Ok [(python_course, Fin (-1)); (python_course, NInf)]).
Proof. vm_compute. reflexivity. Qed.

(** C10.  When the index reports the label -1 for a hit and the table is
    not empty, the test [idx < len(df)] holds for it and the returned
    list holds the last row of the table paired with the score of that
    hit. *)
Theorem sentinel_label_returns_last_row
    (encode : string -> list f32) (norm : list f32 -> f32)
    (query : string) (index : Index) (df : DataFrame) (k : Z)
    (distances : list f32) (indices : list Z) (j : nat) (dist : f32) :
  (0 < len df)%Z ->
  search index (normalize norm (encode query)) k = Ok (distances, indices) ->
  Forall (fun i => (-1 <= i)%Z) indices ->
  nth_error indices j = Some (-1)%Z ->
  nth_error distances j = Some dist ->
  (-1 <? len df)%Z = true /\
  exists res last_row,
    outcome (search_faiss_index encode norm query (Some index) (Some df) k)
      = Ok res /\
    nth_error df (List.length df - 1) = Some last_row /\
    In (last_row, similarity dist) res.
Proof.
  intros Hpos Hs Hall Hi Hdist.
  pose proof (len_pos_nonempty df Hpos) as Hdf. split.
  { apply Z.ltb_lt. lia. }
  rewrite search_faiss_index_loaded, Hs. cbn [outcome snd].
  apply prepare_results_sentinel; [exact Hdf | |].
  - unfold scored_hits. rewrite Forall_forall in *. intros [i s] Hin.
    apply in_combine_l in Hin. simpl. auto.
  - unfold scored_hits. apply nth_error_In with (n := j).
    apply nth_error_combine; [exact Hi|].
    rewrite nth_error_map, Hdist. reflexivity.
Qed.

Lemma sentinel_label_returns_last_row_witness :
  (-1 <? len [python_course])%Z = true /\
  exists res last_row,
    outcome (search_faiss_index encode_e1 norm_one "python"
               (loaded [e2]) (Some [python_course]) 2) = Ok res /\
    nth_error [python_course] (List.length [python_course] - 1) = Some last_row /\
    In (last_row, similarity (Fin FLT_MAX)) res.
Proof.
  apply (sentinel_label_returns_last_row encode_e1 norm_one "python"
           (as_index (flat_index [e2])) [python_course] 2
           [Fin 2; Fin FLT_MAX] [0%Z; (-1)%Z] 1 (Fin FLT_MAX)).
  - reflexivity.
  - vm_compute. reflexivity.
  - repeat (apply Forall_cons; [lia|]). apply Forall_nil.
  - reflexivity.
  - reflexivity.
Defined.


(** C5, as stated, fails: the stored row at position 1 equals the query
    (squared distance 0) and the row at position 0 lies at squared
    distance 2^-26; the index lists position 1 first, both scores round
    to 1.0 in float32, and the tied results come in descending position
    order. *)
Lemma tied_scores_in_descending_position_order :
  IndexFlatL2_search (flat_index [near_e1; e1])
      (normalize norm_one (encode_e1 "python")) 2
    = Ok ([Fin 0; Fin (1 # 67108864)], [1%Z; 0%Z]) /\
  scored_hits ([Fin 0; Fin (1 # 67108864)], [1%Z; 0%Z])
    = [(1%Z, Fin 1); (0%Z, Fin 1)] /\
  outcome (search_faiss_index encode_e1 norm_one "python"
             (loaded [near_e1; e1]) (Some [python_course; leadership_course]) 2)
    = Ok [(leadership_course, Fin 1); (python_course, Fin 1)] /\
  ~ ties_in_position_order [(1%Z, Fin 1); (0%Z, Fin 1)].
Proof.
  split; [vm_compute; reflexivity|].
  split; [vm_compute; reflexivity|].
  split; [vm_compute; reflexivity|].
  intro H.
  specialize (H 0%nat 1%nat 1%Z 0%Z (Fin 1) (Fin 1)).
  assert (C : (1 <= 0)%Z) by (apply H; [lia | reflexivity | reflexivity | reflexivity]).
  lia.
Qed.

(** C5, amended.  Over a non-empty table the search returns, its scores
    never increase along the returned list, and the results keep the
    order of the index answer: ascending squared distance, equal
    distances by ascending position. *)
Theorem search_scores_non_increasing
    (encode : string -> list f32) (norm : list f32 -> f32)
    (query : string) (ix : IndexFlatL2) (df : DataFrame) (k : Z) :
  (0 < len df)%Z ->
  (0 < k)%Z ->
  List.length (encode query) = d ix ->
  exists hits res,
    IndexFlatL2_search ix (normalize norm (encode query)) k
      = Ok (map fst hits, map snd hits) /\
    StronglySorted hit_le hits /\
    outcome (search_faiss_index encode norm query
               (Some (as_index ix)) (Some df) k) = Ok res /\
    prepare_results df (map (fun h => (snd h, similarity (fst h))) hits) = Ok res /\
    non_increasing (map snd res).
Proof.
  intros Hpos Hk Hd.
  pose proof (len_pos_nonempty df Hpos) as Hdf.
  set (x := normalize norm (encode query)).
  assert (Hx : List.length x = d ix) by (unfold x; rewrite normalize_length; exact Hd).
  exists (knn ix x (Z.to_nat k)).
  assert (Hl : Forall (fun h : Z * f32 => (-1 <= fst h)%Z)
                 (map (fun h => (snd h, similarity (fst h))) (knn ix x (Z.to_nat k)))).
  { rewrite Forall_forall. intros h Hh.
    apply in_map_iff in Hh as (h0 & <- & Hin). simpl.
    apply (In_knn ix x _ h0 Hin). }
  destruct (prepare_results_returns df _ Hdf Hl) as (res & E).
  exists res. split; [apply search_ok; assumption|].
  split; [apply knn_sorted|].
  split.
  { rewrite search_faiss_index_loaded. cbn [search as_index]. fold x.
    rewrite search_ok by assumption. rewrite scored_hits_map. exact E. }
  split; [exact E|].
  unfold non_increasing.
  apply (prepare_results_sorted _ df _ res E), knn_scores_non_increasing.
Qed.

Lemma search_scores_non_increasing_witness :
  exists hits res,
    IndexFlatL2_search (flat_index [near_e1; e1])
        (normalize norm_one (encode_e1 "python")) 2
      = Ok (map fst hits, map snd hits) /\
    StronglySorted hit_le hits /\
    outcome (search_faiss_index encode_e1 norm_one "python"
               (Some (as_index (flat_index [near_e1; e1])))
               (Some [python_course; leadership_course]) 2) = Ok res /\
    prepare_results [python_course; leadership_course]
      (map (fun h => (snd h, similarity (fst h))) hits) = Ok res /\
    non_increasing (map snd res).
Proof.
  apply (search_scores_non_increasing encode_e1 norm_one "python"
           (flat_index [near_e1; e1]) [python_course; leadership_course] 2);
    reflexivity.
Defined.

(** C9, as stated, fails: with one stored row and [k = 0], or [k = -1],
    the index rejects the request and the search raises. *)
Lemma non_positive_k_raises :
  search_faiss_index encode_e1 norm_one "python"
    (loaded [e1]) (Some [python_course]) 0
  = ([], Raise AssertionError) /\
  search_faiss_index encode_e1 norm_one "python"
    (loaded [e1]) (Some [python_course]) (-1)
  = ([], Raise AssertionError).
Proof. split; vm_compute; reflexivity. Qed.

(** The run on an empty index with an empty table: the padding label -1
    passes the filter and [iloc] raises. *)
Example empty_corpus_raises :
  search_faiss_index encode_e1 norm_one "python" (loaded []) (Some []) 3
  = ([], Raise IndexError).
Proof. vm_compute. reflexivity. Qed.

(** C9, amended.  The search returns an empty list, not an error, when
    the index or the table is [None]; when [k <= 0] the flat index
    rejects the request and the search raises that error instead of
    returning an empty list. *)
Theorem search_empty_when_not_loaded_raises_when_k_not_positive
    (encode : string -> list f32) (norm : list f32 -> f32)
    (query : string) (k : Z) :
  (forall index df,
     is_None index || is_None df = true ->
     search_faiss_index encode norm query index df k
       = ([IndexOrFrameIsNone], Ok [])) /\
  (forall ix df,
     (k <= 0)%Z ->
     search_faiss_index encode norm query (Some (as_index ix)) (Some df) k
       = ([], Raise AssertionError)).
Proof.
  split.
  - intros [index|] [df|] H; try discriminate; reflexivity.
  - intros ix df Hk. rewrite search_faiss_index_loaded. cbn [search as_index].
    rewrite search_rejects by exact Hk. reflexivity.
Qed.

Lemma search_empty_when_not_loaded_raises_when_k_not_positive_witness :
  search_faiss_index encode_e1 norm_one "python" None (Some [python_course]) 3
    = ([IndexOrFrameIsNone], Ok []) /\
  search_faiss_index encode_e1 norm_one "python"
    (Some (as_index (flat_index [e1]))) (Some [python_course]) (-1)
    = ([], Raise AssertionError).
Proof.
  split.
  - apply (proj1 (search_empty_when_not_loaded_raises_when_k_not_positive
                    encode_e1 norm_one "python" 3)).
    reflexivity.
  - apply (proj2 (search_empty_when_not_loaded_raises_when_k_not_positive
                    encode_e1 norm_one "python" (-1))).
    lia.
Defined.

(** The flat index does report the label -1 as soon as more results are
    requested than rows are stored, and the last row of the table then
    comes back with the score of an empty slot. *)
Lemma flat_index_padding_returns_last_row
    (encode : string -> list f32) (norm : list f32 -> f32)
    (query : string) (ix : IndexFlatL2) (df : DataFrame) (k : Z) :
  (0 < len df)%Z ->
  (len (xb ix) < k)%Z ->
  List.length (encode query) = d ix ->
  exists res last_row,
    outcome (search_faiss_index encode norm query
               (Some (as_index ix)) (Some df) k) = Ok res /\
    nth_error df (List.length df - 1) = Some last_row /\
    In (last_row, NInf) res.
Proof.
  intros Hpos Hk Hd.
  pose proof (len_pos_nonempty df Hpos) as Hdf.
  set (x := normalize norm (encode query)).
  assert (Hx : List.length x = d ix) by (unfold x; rewrite normalize_length; exact Hd).
  rewrite search_faiss_index_loaded. cbn [search as_index]. fold x.
  rewrite search_ok by (try assumption; unfold len in Hk; lia).
  rewrite scored_hits_map. cbn [outcome snd].
  apply prepare_results_sentinel; [exact Hdf | |].
  - rewrite Forall_forall. intros h Hh.
    apply in_map_iff in Hh as (h0 & <- & Hin). simpl.
    apply (In_knn ix x _ h0 Hin).
  - change ((-1)%Z, NInf) with
      ((fun h : f32 * Z => (snd h, similarity (fst h))) (Fin FLT_MAX, (-1)%Z)).
    apply in_map, knn_pads. unfold len in Hk. lia.
Qed.

End SearchClaims.

(* ================================================================== *)
(** * Loading the persisted pair *)
(* ================================================================== *)

Module LoadClaims.

Import Faiss Samples.

Lemma load_both_stored fs ix t :
  course_index_faiss fs = Stored ix ->
  processed_courses_csv fs = Stored t ->
  load_faiss_index fs =
    ([LoadedIndex (len (xb ix))], Ok (Some (as_index ix), Some t)).
Proof.
  intros Hi Ht. unfold load_faiss_index, read_index, read_csv.
  rewrite Hi, Ht. reflexivity.
Qed.

Lemma load_outcome fs :
  outcome (load_faiss_index fs) =
  match course_index_faiss fs, processed_courses_csv fs with
  | Stored ix, Stored t => Ok (Some (as_index ix), Some t)
  | _, _ => Ok (None, None)
  end.
Proof.
  unfold load_faiss_index, read_index, read_csv.
  destruct (course_index_faiss fs), (processed_courses_csv fs); reflexivity.
Qed.

(** C3, as stated, fails: an index file with two vectors beside a table
    with one row is loaded and returned as a pair. *)
Lemma load_returns_pair_with_different_row_counts :
  load_faiss_index
    {| course_index_faiss := Stored (flat_index [e1; e2]);
       processed_courses_csv := Stored [python_course] |}
  = ([LoadedIndex 2],
     Ok (Some (as_index (flat_index [e1; e2])), Some [python_course])) /\
  ntotal (as_index (flat_index [e1; e2])) = 2%Z /\
  len [python_course] = 1%Z.
Proof. repeat split; reflexivity. Qed.

(** C3, amended.  Loading never raises and returns either both artifacts
    or the pair (None, None), never one without the other; it returns
    (None, None) if either artifact is missing or cannot be read; it
    does not compare row counts: two readable artifacts are returned
    whatever their sizes. *)
Theorem load_faiss_index_all_or_nothing (fs : disk) :
  (course_index_faiss fs = Missing \/ processed_courses_csv fs = Missing \/
   course_index_faiss fs = Unreadable \/ processed_courses_csv fs = Unreadable ->
   outcome (load_faiss_index fs) = Ok (None, None)) /\
  (forall ix t,
     course_index_faiss fs = Stored ix ->
     processed_courses_csv fs = Stored t ->
     outcome (load_faiss_index fs) = Ok (Some (as_index ix), Some t)) /\
  (exists index df,
     outcome (load_faiss_index fs) = Ok (index, df) /\
     is_None index = is_None df).
Proof.
  rewrite load_outcome. repeat split.
  - intros [H|[H|[H|H]]]; rewrite H; try reflexivity;
      destruct (course_index_faiss fs); reflexivity.
  - intros ix t Hi Ht. rewrite Hi, Ht. reflexivity.
  - destruct (course_index_faiss fs), (processed_courses_csv fs);
      eexists; eexists; split; reflexivity.
Qed.

Lemma load_faiss_index_all_or_nothing_witness :
  outcome (load_faiss_index
             {| course_index_faiss := Missing;
                processed_courses_csv := Stored [python_course] |})
    = Ok (None, None) /\
  outcome (load_faiss_index
             {| course_index_faiss := Stored (flat_index [e1]);
                processed_courses_csv := Stored [python_course] |})
    = Ok (Some (as_index (flat_index [e1])), Some [python_course]).
Proof.
  split.
  - apply (proj1 (load_faiss_index_all_or_nothing _)). left. reflexivity.
  - apply (proj1 (proj2 (load_faiss_index_all_or_nothing _))); reflexivity.
Defined.

End LoadClaims.

(* ================================================================== *)
(** * The facade *)
(* ================================================================== *)

Module RecommenderClaims.

Import Faiss Samples LoadClaims.

Lemma init_outcome fs :
  outcome (init fs) =
  match outcome (load_faiss_index fs) with
  | Ok loaded => Ok {| index := fst loaded; df := snd loaded |}
  | Raise e => Raise e
  end.
Proof.
  unfold init, bind, print. cbn [outcome snd].
  destruct (load_faiss_index fs) as [out [[i t]|e]]; cbn.
  - destruct (is_None i || is_None t); reflexivity.
  - reflexivity.
Qed.

(** C7, as stated, fails: an index file with no vector and a table with
    no row are loaded, and the recommender is ready. *)
Lemma ready_with_empty_index_and_table :
  exists self,
    outcome (init {| course_index_faiss := Stored (flat_index []);
                     processed_courses_csv := Stored [] |}) = Ok self /\
    option_map ntotal (index self) = Some 0%Z /\
    option_map len (df self) = Some 0%Z /\
    is_ready self = true.
Proof. eexists. repeat split; reflexivity. Qed.

(** C7, amended.  [is_ready] is true exactly when the index and the
    table are both loaded (neither is None), whatever their sizes; after
    [__init__] that is exactly when both artifacts were readable. *)
Theorem is_ready_iff_loaded :
  (forall self : CourseRecommender,
     is_ready self = true <-> index self <> None /\ df self <> None) /\
  (forall fs : disk,
     exists self,
       outcome (init fs) = Ok self /\
       (is_ready self = true <->
        exists ix t, course_index_faiss fs = Stored ix /\
                     processed_courses_csv fs = Stored t)).
Proof.
  split.
  - intros [[i|] [t|]]; unfold is_ready; simpl;
      (split; [intro H | intros [H1 H2]]);
      try discriminate; try congruence.
    split; discriminate.
  - intro fs. rewrite init_outcome, load_outcome.
    destruct (course_index_faiss fs) as [| |ix] eqn:Ei;
    destruct (processed_courses_csv fs) as [| |t] eqn:Et;
      eexists; (split; [reflexivity|]); unfold is_ready; simpl;
      (split; [intro H | intros (ix' & t' & H1 & H2)]);
      try discriminate.
    + exists ix, t. split; reflexivity.
    + reflexivity.
Qed.

(** C8, as stated, fails: a recommender that is not ready and a ready one
    for which nothing matches hand the same value to the caller; they
    differ only in what they print. *)
Lemma not_ready_and_no_match_return_the_same :
  is_ready {| index := None; df := None |} = false /\
  is_ready {| index := loaded [e1]; df := Some [] |} = true /\
  get_recommendations encode_e1 norm_one
      {| index := None; df := None |} "python" 1
    = ([NotProperlyInitialized], Ok []) /\
  get_recommendations encode_e1 norm_one
      {| index := loaded [e1]; df := Some [] |} "python" 1
    = ([Searching "python"; NoRecommendations], Ok []).
Proof. repeat split; vm_compute; reflexivity. Qed.

(** C8, amended.  Whenever [is_ready] is false, [get_recommendations]
    prints its error line and returns an empty list rather than failing;
    the returned value carries no further condition. *)
Theorem not_ready_returns_empty_list
    (encode : string -> list f32) (norm : list f32 -> f32)
    (self : CourseRecommender) (query : string) (k : Z) :
  is_ready self = false ->
  get_recommendations encode norm self query k
    = ([NotProperlyInitialized], Ok []).
Proof.
  destruct self as [[i|] [t|]]; unfold is_ready; simpl; intro H;
    try discriminate; reflexivity.
Qed.

Lemma not_ready_returns_empty_list_witness :
  is_ready {| index := None; df := Some [python_course] |} = false /\
  get_recommendations encode_e1 norm_one
      {| index := None; df := Some [python_course] |} "python" 5
    = ([NotProperlyInitialized], Ok []).
Proof.
  split; [reflexivity|].
  apply (not_ready_returns_empty_list encode_e1 norm_one
           {| index := None; df := Some [python_course] |} "python" 5).
  reflexivity.
Defined.

End RecommenderClaims.

(* ================================================================== *)
(** * Price cleaning *)
(* ================================================================== *)

Module PriceClaims.

Import PriceCleaning.
Open Scope string_scope.

Lemma existsb_eqb_In c cs : existsb (Ascii.eqb c) cs = true <-> In c cs.
Proof.
  rewrite existsb_exists. split.
  - intros (x & Hx & E). apply Ascii.eqb_eq in E. now subst.
  - intro H. exists c. split; [exact H | apply Ascii.eqb_refl].
Qed.

Lemma remove_chars_app cs s1 s2 :
  remove_chars cs (s1 ++ s2) = remove_chars cs s1 ++ remove_chars cs s2.
Proof.
  induction s1 as [|c s1 IH]; simpl; [reflexivity|].
  destruct (existsb (Ascii.eqb c) cs); simpl; now rewrite IH.
Qed.

Lemma remove_chars_drop cs c s :
  In c cs -> remove_chars cs (String c s) = remove_chars cs s.
Proof.
  intro H. simpl. now rewrite (proj2 (existsb_eqb_In c cs) H).
Qed.

Lemma remove_chars_clean cs s c :
  In c (list_ascii_of_string (remove_chars cs s)) -> ~ In c cs.
Proof.
  induction s as [|a s IH]; simpl; [tauto|].
  destruct (existsb (Ascii.eqb a) cs) eqn:E; [exact IH|].
  simpl. intros [-> | H]; [|auto].
  intro C. apply existsb_eqb_In in C. congruence.
Qed.

Lemma remove_chars_id cs s :
  (forall c, In c (list_ascii_of_string s) -> ~ In c cs) ->
  remove_chars cs s = s.
Proof.
  induction s as [|a s IH]; simpl; intro H; [reflexivity|].
  destruct (existsb (Ascii.eqb a) cs) eqn:E.
  - apply existsb_eqb_In in E. exfalso. apply (H a); auto.
  - f_equal. apply IH. intros c Hc. apply H. auto.
Qed.

Lemma In_lstrip c s :
  In c (list_ascii_of_string (lstrip s)) -> In c (list_ascii_of_string s).
Proof.
  induction s as [|a s IH]; simpl; [tauto|].
  destruct (isspace a); simpl; auto.
Qed.

Lemma In_rstrip c s :
  In c (list_ascii_of_string (rstrip s)) -> In c (list_ascii_of_string s).
Proof.
  induction s as [|a s IH]; simpl; [tauto|].
  destruct (rstrip s) as [|b r].
  - destruct (isspace a); simpl; tauto.
  - simpl in *. tauto.
Qed.

Lemma In_strip c s :
  In c (list_ascii_of_string (strip s)) -> In c (list_ascii_of_string s).
Proof. intro H. apply In_lstrip, In_rstrip, H. Qed.

(** C6, as stated, fails: in the price range "10-20" the hyphen is no
    trailing "/-" suffix, yet the code deletes it and derives 1020,
    where stripping only commas and a trailing "/-" leaves a text that
    is no number, hence 0. *)
Lemma price_range_loses_its_hyphen :
  clean_price_text "10-20" = "1020" /\
  clean_price parse_decimal (Some "10-20") = 1020%Q /\
  strip_trailing_suffix (remove_commas "10-20") = "10-20" /\
  spec_price parse_decimal (Some "10-20") = 0%Q.
Proof. repeat split; reflexivity. Qed.

(** C6, amended.  The derived price is obtained by deleting every comma,
    slash and hyphen wherever it stands in the text, trimming the
    surrounding white space and coercing the remainder to a number, with
    0 when the text is absent or the coercion fails; "1,000/-" and
    "5000" yield 1000 and 5000.  The coercion is any function that reads
    "0", "1000" and "5000" as those numbers. *)
Theorem clean_price_deletes_separators_everywhere
    (to_numeric : string -> option Q) :
  to_numeric "0" = Some 0%Q ->
  to_numeric "1000" = Some 1000%Q ->
  to_numeric "5000" = Some 5000%Q ->
  (forall x y c,
     In c separators ->
     clean_price to_numeric (Some (x ++ String c y))
       = clean_price to_numeric (Some (x ++ y))) /\
  (forall x c,
     In c separators -> ~ In c (list_ascii_of_string (clean_price_text x))) /\
  (forall x,
     (forall c, In c (list_ascii_of_string x) -> ~ In c separators) ->
     clean_price_text x = strip x) /\
  clean_price to_numeric None = 0%Q /\
  (forall x,
     to_numeric (clean_price_text x) = None ->
     clean_price to_numeric (Some x) = 0%Q) /\
  (forall x v,
     to_numeric (clean_price_text x) = Some v ->
     clean_price to_numeric (Some x) = v) /\
  clean_price to_numeric (Some "1,000/-") = 1000%Q /\
  clean_price to_numeric (Some "5000") = 5000%Q.
Proof.
  intros H0 H1000 H5000. repeat split.
  - intros x y c Hc. unfold clean_price, clean_price_text, re_sub_price.
    rewrite !remove_chars_app, (remove_chars_drop _ c y Hc). reflexivity.
  - intros x c Hc Hin. unfold clean_price_text, re_sub_price in Hin.
    apply In_strip in Hin. exact (remove_chars_clean _ _ _ Hin Hc).
  - intros x Hx. unfold clean_price_text, re_sub_price.
    now rewrite (remove_chars_id _ x Hx).
  - unfold clean_price. change (clean_price_text "0") with "0".
    now rewrite H0.
  - intros x Hx. unfold clean_price. now rewrite Hx.
  - intros x v Hx. unfold clean_price. now rewrite Hx.
  - unfold clean_price. change (clean_price_text "1,000/-") with "1000".
    now rewrite H1000.
  - unfold clean_price. change (clean_price_text "5000") with "5000".
    now rewrite H5000.
Qed.

Lemma clean_price_deletes_separators_everywhere_witness :
  clean_price parse_decimal (Some "1,0-0/0") = clean_price parse_decimal (Some "1,0-00") /\
  clean_price parse_decimal None = 0%Q /\
  clean_price parse_decimal (Some "1,000/-") = 1000%Q /\
  clean_price parse_decimal (Some "5000") = 5000%Q.
Proof.
  pose proof (clean_price_deletes_separators_everywhere parse_decimal
                eq_refl eq_refl eq_refl)
    as (Hdel & _ & _ & Hnone & _ & _ & H1 & H5).
  split; [|split; [exact Hnone | split; [exact H1 | exact H5]]].
  apply (Hdel "1,0-0" "0" "/"%char). simpl. tauto.
Defined.

End PriceClaims.

(* ================================================================== *)
(** * Further properties of the search and of the facade *)
(* ================================================================== *)

Module SearchProperties.

Import Faiss FaissFacts SearchFacts Samples.

Lemma iloc_In (df : DataFrame) i c : iloc df i = Ok c -> In c df.
Proof.
  unfold iloc. destruct (_ <? 0)%Z; [discriminate|].
  destruct (nth_error df _) as [c'|] eqn:E; [|discriminate].
  intros [= <-]. eapply nth_error_In, E.
Qed.

Lemma prepare_results_rows df hits res :
  prepare_results df hits = Ok res -> Forall (fun r => In (fst r) df) res.
Proof.
  revert res. induction hits as [|[idx sim] hits IH]; intros res H; simpl in H.
  - injection H as <-. constructor.
  - destruct (idx <? len df)%Z; [|auto].
    destruct (iloc df idx) as [c|] eqn:Ec; [|discriminate]. simpl in H.
    destruct (prepare_results df hits) as [r|]; [|discriminate]. simpl in H.
    injection H as <-. constructor; [|auto].
    simpl. eapply iloc_In, Ec.
Qed.

(** Without the label -1 the loop keeps exactly the hits whose label is
    below [len(df)], each with the row at its label. *)
Lemma prepare_results_in_range df hits :
  Forall (fun h : Z * f32 => (0 <= fst h)%Z) hits ->
  exists res,
    prepare_results df hits = Ok res /\
    Forall2 (fun h r => nth_error df (Z.to_nat (fst h)) = Some (fst r) /\
                        snd r = snd h)
            (filter (fun h => (fst h <? len df)%Z) hits) res.
Proof.
  induction hits as [|[idx sim] hits IH]; intro H; simpl.
  - exists []. split; [reflexivity | constructor].
  - inversion H as [|? ? Hi Hr]; subst. simpl in Hi.
    destruct (IH Hr) as (res & E & F). rewrite E.
    destruct (Z.ltb_spec idx (len df)) as [Hlt|Hge].
    + destruct (iloc_nth df idx) as (c & Ec & En); [lia|].
      rewrite Ec. simpl. exists ((c, sim) :: res). split; [reflexivity|].
      constructor; [|exact F]. simpl. auto.
    + exists res. split; [reflexivity | exact F].
Qed.

Lemma scored_hits_scores distances indices s :
  In s (map snd (scored_hits (distances, indices))) ->
  exists dist, In dist distances /\ s = similarity dist.
Proof.
  unfold scored_hits. intro H. apply in_map_iff in H as ([i s'] & <- & Hin).
  apply in_combine_r in Hin. apply in_map_iff in Hin as (dist & <- & Hd).
  eauto.
Qed.

(** X1.  For an index answer without the label -1 the search returns,
    without raising, exactly the hits whose label is below [len(df)], in
    the order of the answer: the hit labelled [i] is paired with row [i]
    of the table and with its own score, and a label outside the table
    is skipped. *)
Theorem search_pairs_each_label_with_its_row
    (encode : string -> list f32) (norm : list f32 -> f32)
    (query : string) (index : Index) (df : DataFrame) (k : Z)
    (distances : list f32) (indices : list Z) :
  search index (normalize norm (encode query)) k = Ok (distances, indices) ->
  Forall (fun i => (0 <= i)%Z) indices ->
  exists res,
    search_faiss_index encode norm query (Some index) (Some df) k
      = ([], Ok res) /\
    Forall2 (fun h r => nth_error df (Z.to_nat (fst h)) = Some (fst r) /\
                        snd r = snd h)
            (filter (fun h => (fst h <? len df)%Z)
                    (combine indices (map similarity distances)))
            res.
Proof.
  intros Hs Hall.
  rewrite search_faiss_index_loaded, Hs.
  destruct (prepare_results_in_range df (scored_hits (distances, indices)))
    as (res & E & F).
  { unfold scored_hits. rewrite Forall_forall in *. intros [i s] Hin.
    apply in_combine_l in Hin. simpl. auto. }
  exists res. rewrite E. split; [reflexivity | exact F].
Qed.

Lemma search_pairs_each_label_with_its_row_witness :
  exists res,
    search_faiss_index encode_e1 norm_one "python"
      (Some (as_index (flat_index [e2; e1; minus_e1])))
      (Some [python_course; leadership_course]) 3
      = ([], Ok res) /\
    Forall2 (fun h r => nth_error [python_course; leadership_course]
                          (Z.to_nat (fst h)) = Some (fst r) /\
                        snd r = snd h)
            (filter (fun h => (fst h <? len [python_course; leadership_course])%Z)
                    (combine [1; 0; 2]%Z (map similarity [Fin 0; Fin 2; Fin 4])))
            res.
Proof.
  apply (search_pairs_each_label_with_its_row encode_e1 norm_one "python"
           (as_index (flat_index [e2; e1; minus_e1]))
           [python_course; leadership_course] 3
           [Fin 0; Fin 2; Fin 4] [1; 0; 2]%Z).
  - vm_compute. reflexivity.
  - repeat (apply Forall_cons; [lia|]). apply Forall_nil.
Defined.

(** X2.  Whatever the index answers, a search that returns hands back
    only rows of the table, and every score is the conversion of line
    132 applied to a distance of the answer. *)
Theorem search_returns_only_table_rows
    (encode : string -> list f32) (norm : list f32 -> f32)
    (query : string) (index : Index) (df : DataFrame) (k : Z)
    (distances : list f32) (indices : list Z)
    (res : list (course * f32)) :
  search index (normalize norm (encode query)) k = Ok (distances, indices) ->
  outcome (search_faiss_index encode norm query (Some index) (Some df) k)
    = Ok res ->
  Forall (fun r => In (fst r) df /\
                   exists dist, In dist distances /\ snd r = similarity dist)
         res.
Proof.
  intros Hs. rewrite search_faiss_index_loaded, Hs. cbn [outcome snd]. intro E.
  pose proof (prepare_results_rows _ _ _ E) as Hrows.
  rewrite Forall_forall in *. intros r Hr. split; [auto|].
  apply (scored_hits_scores distances indices).
  apply (prepare_results_In _ _ _ E). apply in_map, Hr.
Qed.

Lemma search_returns_only_table_rows_witness :
  Forall (fun r => In (fst r) [python_course] /\
                   exists dist, In dist [Fin 2; Fin FLT_MAX] /\
                                snd r = similarity dist)
         [(python_course, Fin (-1)); (python_course, NInf)].
Proof.
  apply (search_returns_only_table_rows encode_e1 norm_one "python"
           (as_index (flat_index [e2])) [python_course] 2
           [Fin 2; Fin FLT_MAX] [0; -1]%Z).
  - vm_compute. reflexivity.
  - vm_compute. reflexivity.
Defined.


(** ** The flat index: bounds and the best match *)

Lemma similarity_at_zero q : (q == 0)%Q -> similarity (Fin q) = Fin 1.
Proof.
  intro H. unfold similarity. cbn [f32_mul].
  rewrite Binary32Facts.rnd_zero; [vm_compute; reflexivity|].
  rewrite H. reflexivity.
Qed.

Lemma similarity_at_most_one dist :
  f32_le (Fin 0) dist -> f32_le (similarity dist) (Fin 1).
Proof.
  intro H. rewrite <- (similarity_at_zero 0) by reflexivity.
  apply Binary32Facts.similarity_antitone; [reflexivity | exact H].
Qed.

Lemma In_combine_seq {A} (f : list f32 -> A) (l : list (list f32)) s a i :
  In (a, i) (combine (map f l) (map Z.of_nat (seq s (List.length l)))) <->
  exists n v, nth_error l n = Some v /\ a = f v /\ i = Z.of_nat (s + n).
Proof.
  revert s. induction l as [|w l IH]; intro s; simpl.
  - split; [tauto|]. intros ([|n] & v & H & _); discriminate.
  - split.
    + intros [H|H].
      * injection H as <- <-. exists 0%nat, w. rewrite Nat.add_0_r. auto.
      * apply IH in H as (n & v & Hn & Ha & Hi).
        exists (S n), v. simpl. repeat split; auto. rewrite Hi. f_equal. lia.
    + intros ([|n] & v & Hn & Ha & Hi); simpl in Hn.
      * injection Hn as <-. left. rewrite Ha, Hi, Nat.add_0_r. reflexivity.
      * right. apply IH. exists n, v. repeat split; auto.
        rewrite Hi. f_equal. lia.
Qed.

Lemma In_all_hits_nth ix x dist i :
  In (dist, i) (all_hits ix x) <->
  exists n v, nth_error (xb ix) n = Some v /\
              dist = fvec_L2sqr x v /\ i = Z.of_nat n.
Proof. unfold all_hits. apply In_combine_seq. Qed.

Lemma hit_le_refl h : accepted h -> hit_le h h.
Proof. intro H. destruct (hit_le_total h h H H); assumption. Qed.

(** The first entry of a non-empty answer is a least candidate. *)
Lemma knn_head ix x k c :
  (0 < k)%nat ->
  In c (filter (fun h => f32_ltb (fst h) (Fin FLT_MAX)) (all_hits ix x)) ->
  exists h rest,
    knn ix x k = h :: rest /\
    In h (filter (fun h => f32_ltb (fst h) (Fin FLT_MAX)) (all_hits ix x)) /\
    forall c', In c' (filter (fun h => f32_ltb (fst h) (Fin FLT_MAX))
                             (all_hits ix x)) ->
               hit_le h c'.
Proof.
  intros Hk Hc. unfold knn.
  set (cands := filter _ (all_hits ix x)) in *.
  assert (Hacc : Forall accepted cands).
  { rewrite Forall_forall. intros h Hh. apply (In_candidates ix x h Hh). }
  pose proof (sort_hits_sorted cands Hacc) as Hs.
  destruct (sort_hits cands) as [|h l] eqn:E.
  - apply (proj2 (In_sort_hits c cands)) in Hc. rewrite E in Hc. destruct Hc.
  - destruct k as [|k]; [lia|]. simpl.
    exists h. eexists. split; [reflexivity|].
    assert (Hh : In h cands).
    { apply (proj1 (In_sort_hits h cands)). rewrite E. simpl. auto. }
    split; [exact Hh|]. intros c' Hc'.
    apply (proj2 (In_sort_hits c' cands)) in Hc'. rewrite E in Hc'.
    apply StronglySorted_inv in Hs as [_ Hall].
    destruct Hc' as [<- | Hc'].
    + apply hit_le_refl. rewrite Forall_forall in Hacc. auto.
    + rewrite Forall_forall in Hall. auto.
Qed.

(** Over an aligned table the first result is the row at the label of
    the first entry of the answer. *)
Lemma search_head
    (encode : string -> list f32) (norm : list f32 -> f32)
    (query : string) (ix : IndexFlatL2) (df : DataFrame) (k : Z) c0 :
  len df = len (xb ix) ->
  (0 < k)%Z ->
  List.length (encode query) = d ix ->
  In c0 (filter (fun h => f32_ltb (fst h) (Fin FLT_MAX))
                (all_hits ix (normalize norm (encode query)))) ->
  exists dist j row rest,
    outcome (search_faiss_index encode norm query
               (Some (as_index ix)) (Some df) k)
      = Ok ((row, similarity dist) :: rest) /\
    In (dist, Z.of_nat j)
       (filter (fun h => f32_ltb (fst h) (Fin FLT_MAX))
               (all_hits ix (normalize norm (encode query)))) /\
    nth_error df j = Some row /\
    forall c', In c' (filter (fun h => f32_ltb (fst h) (Fin FLT_MAX))
                             (all_hits ix (normalize norm (encode query)))) ->
               hit_le (dist, Z.of_nat j) c'.
Proof.
  intros Hal Hk Hd Hc0.
  set (x := normalize norm (encode query)) in *.
  assert (Hx : List.length x = d ix) by (unfold x; rewrite normalize_length; exact Hd).
  destruct (knn_head ix x (Z.to_nat k) c0 ltac:(lia) Hc0)
    as ([dist lbl] & rest & Ek & Hin & Hmin).
  destruct (In_candidates ix x _ Hin) as [_ Hl]. simpl in Hl.
  assert (Hdf : df <> []).
  { apply len_pos_nonempty. lia. }
  pose proof (SearchClaims.knn_labels ix x (Z.to_nat k) df Hal) as Hlab.
  rewrite Ek in Hlab. simpl in Hlab.
  inversion Hlab as [|? ? _ Hrest]; subst.
  destruct (prepare_results_all df _ Hdf Hrest) as (res & E & _).
  destruct (iloc_nth df lbl) as (row & Ec & En); [lia|].
  exists dist, (Z.to_nat lbl), row, res.
  rewrite Z2Nat.id by lia.
  split; [|split; [exact Hin | split; [exact En | exact Hmin]]].
  rewrite search_faiss_index_loaded. cbn [search as_index]. fold x.
  rewrite search_ok by assumption. rewrite scored_hits_map, Ek.
  cbn [outcome snd]. simpl.
  rewrite (proj2 (Z.ltb_lt lbl (len df))) by lia.
  rewrite Ec. simpl. rewrite E. reflexivity.
Qed.

(** X3.  Over a non-empty table every score the search returns from the
    flat index is at most 1.0. *)
Theorem search_scores_at_most_one
    (encode : string -> list f32) (norm : list f32 -> f32)
    (query : string) (ix : IndexFlatL2) (df : DataFrame) (k : Z) :
  (0 < len df)%Z ->
  (0 < k)%Z ->
  List.length (encode query) = d ix ->
  exists res,
    outcome (search_faiss_index encode norm query
               (Some (as_index ix)) (Some df) k) = Ok res /\
    Forall (fun r => f32_le (snd r) (Fin 1)) res.
Proof.
  intros Hpos Hk Hd.
  pose proof (len_pos_nonempty df Hpos) as Hdf.
  set (x := normalize norm (encode query)).
  assert (Hx : List.length x = d ix) by (unfold x; rewrite normalize_length; exact Hd).
  set (hits := map (fun h : f32 * Z => (snd h, similarity (fst h)))
                   (knn ix x (Z.to_nat k))).
  assert (Hl : Forall (fun h : Z * f32 => (-1 <= fst h)%Z) hits).
  { rewrite Forall_forall. intros h Hh.
    apply in_map_iff in Hh as (h0 & <- & Hin). simpl.
    apply (In_knn ix x _ h0 Hin). }
  destruct (prepare_results_returns df hits Hdf Hl) as (res & E).
  exists res. split.
  - rewrite search_faiss_index_loaded. cbn [search as_index]. fold x.
    rewrite search_ok by assumption. rewrite scored_hits_map. exact E.
  - rewrite Forall_forall. intros r Hr.
    assert (Hs : In (snd r) (map snd hits)).
    { apply (prepare_results_In _ _ _ E). apply in_map, Hr. }
    unfold hits in Hs. rewrite map_map in Hs.
    apply in_map_iff in Hs as (h & <- & Hin). simpl.
    apply similarity_at_most_one. apply (In_knn ix x _ h Hin).
Qed.

Lemma search_scores_at_most_one_witness :
  exists res,
    outcome (search_faiss_index encode_e1 norm_one "python"
               (Some (as_index (flat_index [near_e1; e2; minus_e1])))
               (Some [python_course; leadership_course]) 4) = Ok res /\
    Forall (fun r => f32_le (snd r) (Fin 1)) res.
Proof.
  apply (search_scores_at_most_one encode_e1 norm_one "python"
           (flat_index [near_e1; e2; minus_e1])
           [python_course; leadership_course] 4); reflexivity.
Defined.




Lemma fvec_L2sqr_self x :
  forallb is_finite x = true -> fvec_L2sqr x x = Fin 0.
Proof.
  unfold fvec_L2sqr. induction x as [|a x IH]; intro H; simpl; [reflexivity|].
  apply andb_true_iff in H as [Ha Hx].
  destruct a as [q| | |]; try discriminate.
  assert (E : f32_sub (Fin q) (Fin q) = Fin 0).
  { unfold f32_sub. simpl. apply Binary32Facts.rnd_zero. ring. }
  cbn [fst snd]. rewrite E. exact (IH Hx).
Qed.

(** X5.  Over a table aligned with the flat index and for [k >= 1], when
    a stored row equals the normalised query row (all its components
    being numbers), the first result has the score 1.0 exactly. *)
Theorem exact_match_scores_one_first
    (encode : string -> list f32) (norm : list f32 -> f32)
    (query : string) (ix : IndexFlatL2) (df : DataFrame) (k : Z) (i : nat) :
  len df = len (xb ix) ->
  (0 < k)%Z ->
  List.length (encode query) = d ix ->
  nth_error (xb ix) i = Some (normalize norm (encode query)) ->
  forallb is_finite (normalize norm (encode query)) = true ->
  exists row rest,
    outcome (search_faiss_index encode norm query
               (Some (as_index ix)) (Some df) k)
      = Ok ((row, Fin 1) :: rest).
Proof.
  intros Hal Hk Hd Hv Hfin.
  set (x := normalize norm (encode query)) in *.
  assert (Hc0 : In (Fin 0, Z.of_nat i)
                   (filter (fun h => f32_ltb (fst h) (Fin FLT_MAX)) (all_hits ix x))).
  { apply filter_In. split; [|reflexivity].
    apply In_all_hits_nth. exists i, x. rewrite (fvec_L2sqr_self x Hfin). auto. }
  destruct (search_head encode norm query ix df k _ Hal Hk Hd Hc0)
    as (dist & j & row & rest & E & Hin & _ & Hmin).
  fold x in E, Hin, Hmin.
  destruct (In_candidates ix x _ Hin) as [(q & Eq & Hq & _) _]. simpl in Eq.
  specialize (Hmin _ Hc0). apply hit_le_dist in Hmin. simpl in Hmin.
  rewrite Eq in Hmin, E. apply Binary32Facts.f32_le_Fin in Hmin.
  rewrite similarity_at_zero in E by (apply Qle_antisym; assumption).
  eauto.
Qed.

Lemma exact_match_scores_one_first_witness :
  exists row rest,
    outcome (search_faiss_index encode_e1 norm_one "python"
               (Some (as_index (flat_index [e2; e1])))
               (Some [python_course; leadership_course]) 2)
      = Ok ((row, Fin 1) :: rest).
Proof.
  apply (exact_match_scores_one_first encode_e1 norm_one "python"
           (flat_index [e2; e1]) [python_course; leadership_course] 2 1%nat);
    reflexivity.
Defined.

(** X6.  Over a non-empty table aligned with the flat index, a search
    for [k >= 1] results returns exactly [k] results, and their scores
    are, in order, the conversions of the [k] distances of the index
    answer. *)
Theorem aligned_search_returns_k_results
    (encode : string -> list f32) (norm : list f32 -> f32)
    (query : string) (ix : IndexFlatL2) (df : DataFrame) (k : Z) :
  (0 < len df)%Z ->
  len df = len (xb ix) ->
  (0 < k)%Z ->
  List.length (encode query) = d ix ->
  exists distances indices res,
    IndexFlatL2_search ix (normalize norm (encode query)) k
      = Ok (distances, indices) /\
    outcome (search_faiss_index encode norm query
               (Some (as_index ix)) (Some df) k) = Ok res /\
    len res = k /\
    map snd res = map similarity distances.
Proof.
  intros Hpos Hal Hk Hd.
  destruct (SearchClaims.aligned_search_scores encode norm query ix df k
              Hpos Hal Hk Hd)
    as (distances & indices & res & Hs & Hl & E & Em).
  exists distances, indices, res. repeat split; try assumption.
  apply (f_equal (@List.length f32)) in Em.
  rewrite !length_map in Em. unfold len. lia.
Qed.

Lemma aligned_search_returns_k_results_witness :
  exists distances indices res,
    IndexFlatL2_search (flat_index [e2; e1])
        (normalize norm_one (encode_e1 "python")) 1
      = Ok (distances, indices) /\
    outcome (search_faiss_index encode_e1 norm_one "python"
               (Some (as_index (flat_index [e2; e1])))
               (Some [python_course; leadership_course]) 1) = Ok res /\
    len res = 1%Z /\
    map snd res = map similarity distances.
Proof.
  apply (aligned_search_returns_k_results encode_e1 norm_one "python"
           (flat_index [e2; e1]) [python_course; leadership_course] 1);
    reflexivity.
Defined.

End SearchProperties.

(* ================================================================== *)
(** * Further properties of loading and of the facade *)
(* ================================================================== *)

Module FacadeProperties.

Import Faiss SearchFacts Samples.

Lemma print_hits_run rank recs :
  exists lines,
    print_hits rank recs = (lines, Ok tt) /\
    List.length lines = List.length recs /\
    forall n c s,
      nth_error recs n = Some (c, s) ->
      nth_error lines n
        = Some (Hit (rank + Z.of_nat n) (Title c) (Offered_by c) s).
Proof.
  revert rank. induction recs as [|[c s] recs IH]; intro rank.
  - exists []. repeat split. intros [|n]; discriminate.
  - destruct (IH (rank + 1)%Z) as (lines & E & Hl & Hn).
    exists (Hit rank (Title c) (Offered_by c) s :: lines).
    simpl. unfold bind, print. rewrite E. simpl.
    split; [reflexivity|]. split; [now rewrite Hl|].
    intros [|n] c' s' H; simpl in *.
    + injection H as <- <-. now rewrite Z.add_0_r.
    + rewrite (Hn n c' s' H). do 2 f_equal. lia.
Qed.

Lemma ready_loaded self :
  is_ready self = true ->
  exists i t, index self = Some i /\ df self = Some t.
Proof.
  destruct self as [[i|] [t|]]; unfold is_ready; simpl; intro H;
    try discriminate; eauto.
Qed.

Lemma ready_outcome
    (encode : string -> list f32) (norm : list f32 -> f32)
    (i : Index) (t : DataFrame) (query : string) (k : Z) :
  outcome (get_recommendations encode norm
             {| index := Some i; df := Some t |} query k)
    = outcome (search_faiss_index encode norm query (Some i) (Some t) k).
Proof.
  unfold get_recommendations. cbn [index df is_None orb].
  rewrite search_faiss_index_loaded.
  destruct (search i _ k) as [answer|e]; [|reflexivity].
  destruct (prepare_results t (scored_hits answer)) as [[|r recs]|e];
    try reflexivity.
  unfold bind, print, ret. cbn [outcome snd fst app].
  destruct (print_hits_run 1 (r :: recs)) as (lines & -> & _). reflexivity.
Qed.

(** X7.  A ready recommender hands back exactly the outcome of the
    search: the same list, or the same exception, which it does not
    catch. *)
Theorem get_recommendations_hands_back_search_outcome
    (encode : string -> list f32) (norm : list f32 -> f32)
    (self : CourseRecommender) (query : string) (k : Z) :
  is_ready self = true ->
  outcome (get_recommendations encode norm self query k)
    = outcome (search_faiss_index encode norm query (index self) (df self) k).
Proof.
  intro H. destruct (ready_loaded self H) as (i & t & Ei & Et).
  destruct self as [si st]. cbn [index df] in *. subst si st.
  apply ready_outcome.
Qed.

Lemma get_recommendations_hands_back_search_outcome_witness :
  outcome (get_recommendations encode_e1 norm_one
             {| index := loaded []; df := Some [] |} "python" 3)
    = outcome (search_faiss_index encode_e1 norm_one "python"
                 (loaded []) (Some []) 3).
Proof.
  apply (get_recommendations_hands_back_search_outcome encode_e1 norm_one
           {| index := loaded []; df := Some [] |} "python" 3).
  reflexivity.
Defined.




Lemma load_stdout fs :
  stdout (load_faiss_index fs) =
  match course_index_faiss fs, processed_courses_csv fs with
  | Stored ix, Stored _ => [LoadedIndex (len (xb ix))]
  | Stored _, Missing =>
      [RequiredFilesNotFound; MissingFile "processed_courses.csv"]
  | Stored _, Unreadable => [ErrorLoading ParserError]
  | _, _ => [ErrorLoading RuntimeError]
  end.
Proof.
  unfold load_faiss_index, read_index, read_csv.
  destruct (course_index_faiss fs), (processed_courses_csv fs); reflexivity.
Qed.

(** X9.  The line "Error: Required files not found" is printed exactly
    when the index file could be read and the table file is missing; an
    index file that cannot be read, a missing one included, is reported
    by the line "Error loading index or data" alone. *)
Theorem load_reports_missing_table_only (fs : disk) :
  (In RequiredFilesNotFound (stdout (load_faiss_index fs)) <->
   (exists ix, course_index_faiss fs = Stored ix) /\
   processed_courses_csv fs = Missing) /\
  (stdout (load_faiss_index fs) = [ErrorLoading RuntimeError] <->
   forall ix, course_index_faiss fs <> Stored ix).
Proof.
  rewrite load_stdout.
  destruct (course_index_faiss fs) as [| |ix] eqn:Ei;
  destruct (processed_courses_csv fs) as [| |t] eqn:Et; simpl;
    (split; split);
    try (intros [H|[H|[]]]; discriminate);
    try (intros [H|[]]; discriminate);
    try (intros [[ix' H] H']; discriminate);
    try (intro H; discriminate);
    try (intros _ ix' H; discriminate);
    try (intros _; reflexivity);
    try (intro H; exfalso; apply (H ix); reflexivity).
  - intros _. split; [exists ix|]; reflexivity.
  - intros _. left. reflexivity.
Qed.

End FacadeProperties.

(* ================================================================== *)
(** * Further properties of price cleaning *)
(* ================================================================== *)

Module PriceProperties.

Import PriceCleaning.
Open Scope string_scope.

Lemma lstrip_head s c r : lstrip s = String c r -> isspace c = false.
Proof.
  induction s as [|a s IH]; simpl; [discriminate|].
  destruct (isspace a) eqn:E; [exact IH|].
  intros [= <- <-]. exact E.
Qed.

Lemma lstrip_nonspace c s : isspace c = false -> lstrip (String c s) = String c s.
Proof. intro H. simpl. now rewrite H. Qed.

Lemma rstrip_nonspace c s :
  isspace c = false -> exists r, rstrip (String c s) = String c r.
Proof.
  intro H. simpl. destruct (rstrip s); [rewrite H|]; eauto.
Qed.

Lemma rstrip_idempotent s : rstrip (rstrip s) = rstrip s.
Proof.
  induction s as [|a s IH]; simpl; [reflexivity|].
  destruct (rstrip s) as [|b r] eqn:E.
  - destruct (isspace a) eqn:Ea; simpl; [reflexivity|]. now rewrite Ea.
  - simpl in *. rewrite IH. reflexivity.
Qed.

Lemma lstrip_strip s : lstrip (strip s) = strip s.
Proof.
  unfold strip. destruct (lstrip s) as [|c r] eqn:E; [reflexivity|].
  pose proof (lstrip_head s c r E) as Hc.
  destruct (rstrip_nonspace c r Hc) as (r' & ->).
  apply lstrip_nonspace, Hc.
Qed.

Lemma rstrip_strip s : rstrip (strip s) = strip s.
Proof. unfold strip. apply rstrip_idempotent. Qed.

Lemma strip_idempotent s : strip (strip s) = strip s.
Proof. unfold strip at 1. rewrite lstrip_strip. apply rstrip_strip. Qed.

(** X10.  Cleaning a price text leaves a text without comma, slash or
    hyphen and without white space at either end, and cleaning it once
    more changes nothing. *)
Theorem clean_price_text_idempotent (x : string) :
  clean_price_text (clean_price_text x) = clean_price_text x /\
  lstrip (clean_price_text x) = clean_price_text x /\
  rstrip (clean_price_text x) = clean_price_text x /\
  re_sub_price (clean_price_text x) = clean_price_text x.
Proof.
  assert (Hre : re_sub_price (clean_price_text x) = clean_price_text x).
  { unfold re_sub_price. apply PriceClaims.remove_chars_id.
    intros c Hc Hs. unfold clean_price_text, re_sub_price in Hc.
    apply PriceClaims.In_strip in Hc.
    exact (PriceClaims.remove_chars_clean _ _ _ Hc Hs). }
  repeat split.
  - unfold clean_price_text at 1. rewrite Hre.
    unfold clean_price_text. apply strip_idempotent.
  - unfold clean_price_text. apply lstrip_strip.
  - unfold clean_price_text. apply rstrip_strip.
  - exact Hre.
Qed.

End PriceProperties.

(* ================================================================== *)
(** * Properties of the index build *)
(* ================================================================== *)

Module BuildProperties.

Import Faiss SearchFacts Samples Build BuildSamples.

Section Build.

Variable to_numeric : string -> option Q.
Variable price_column_str : list Q -> list string.
Variable encode_batch : list string -> list (list f32).
Variable norm : list f32 -> f32.

Lemma process_rows_length raw prices texts :
  List.length prices = List.length raw ->
  List.length texts = List.length raw ->
  List.length (process_rows raw prices texts) = List.length raw.
Proof.
  revert prices texts. induction raw as [|r raw IH];
    intros [|p prices] [|t texts]; simpl; intros H1 H2;
    try discriminate; try reflexivity.
  injection H1 as H1. injection H2 as H2. now rewrite IH.
Qed.

Lemma process_rows_nth raw prices texts i r p t :
  nth_error raw i = Some r ->
  nth_error prices i = Some p ->
  nth_error texts i = Some t ->
  nth_error (process_rows raw prices texts) i = Some (process_row r p t).
Proof.
  revert prices texts i. induction raw as [|r0 raw IH];
    intros [|p0 prices] [|t0 texts] [|i]; simpl; try discriminate.
  - now intros [= ->] [= ->] [= ->].
  - apply IH.
Qed.

Lemma process_table_length raw :
  List.length (price_column_str (clean_price_column to_numeric raw))
    = List.length raw ->
  List.length (process_table to_numeric price_column_str raw) = List.length raw.
Proof.
  intro H. unfold process_table. apply process_rows_length; [|exact H].
  unfold clean_price_column. apply length_map.
Qed.

Lemma process_table_nth raw i r :
  List.length (price_column_str (clean_price_column to_numeric raw))
    = List.length raw ->
  nth_error raw i = Some r ->
  exists text,
    nth_error (process_table to_numeric price_column_str raw) i
      = Some (process_row r (PriceCleaning.clean_price to_numeric (raw_Price r)) text).
Proof.
  intros H Hr. unfold process_table.
  assert (Hi : (i < List.length raw)%nat).
  { apply nth_error_Some. congruence. }
  destruct (nth_error (price_column_str (clean_price_column to_numeric raw)) i)
    as [text|] eqn:Et.
  2:{ apply nth_error_None in Et. lia. }
  exists text. apply process_rows_nth; [exact Hr | | exact Et].
  unfold clean_price_column. rewrite nth_error_map, Hr. reflexivity.
Qed.

(** A build from a table with at least one row, with one price text and
    one encoded row per table row, succeeds and writes both artifacts. *)
Lemma create_succeeds df_path raw fs :
  (0 < len raw)%Z ->
  List.length (price_column_str (clean_price_column to_numeric raw))
    = List.length raw ->
  List.length (encode_batch
                 (map combined_features
                      (process_table to_numeric price_column_str raw)))
    = List.length raw ->
  exists out row rows,
    encode_batch (map combined_features
                      (process_table to_numeric price_column_str raw))
      = row :: rows /\
    create_and_save_faiss_index to_numeric price_column_str encode_batch norm
        df_path (Stored raw) fs
      = (out,
         (Ok tt,
          {| course_index_faiss :=
               Stored {| d := List.length row;
                         xb := map (normalize norm) (row :: rows) |};
             processed_courses_csv :=
               Stored (process_table to_numeric price_column_str raw) |})).
Proof.
  intros Hpos Hp He.
  unfold create_and_save_faiss_index, build_index. cbn [read_dataset].
  destruct (encode_batch _) as [|row rows] eqn:E.
  - simpl in He. unfold len in Hpos. lia.
  - eexists. exists row, rows. split; reflexivity.
Qed.

End Build.

(** X11.  A build from a dataset with at least one row, with an encoder
    that gives one row per text, writes an index and a table of the same
    size as the dataset, aligned by position: table row [i] holds the
    text fields of dataset row [i] (a null cell as the empty text) and
    its cleaned price, and index row [i] is the normalised encoding of
    the combined features of table row [i]. *)
Theorem build_writes_aligned_pair
    (to_numeric : string -> option Q)
    (price_column_str : list Q -> list string)
    (encode_batch : list string -> list (list f32))
    (norm : list f32 -> f32)
    (df_path : string) (raw : list raw_course) (fs : disk) :
  (0 < len raw)%Z ->
  List.length (price_column_str (clean_price_column to_numeric raw))
    = List.length raw ->
  List.length (encode_batch
                 (map combined_features
                      (process_table to_numeric price_column_str raw)))
    = List.length raw ->
  exists out ix t,
    create_and_save_faiss_index to_numeric price_column_str encode_batch norm
        df_path (Stored raw) fs
      = (out, (Ok tt, {| course_index_faiss := Stored ix;
                         processed_courses_csv := Stored t |})) /\
    len t = len raw /\
    len (xb ix) = len raw /\
    forall i r,
      nth_error raw i = Some r ->
      exists c e,
        nth_error t i = Some c /\
        Title c = fillna_empty (raw_Title r) /\
        Offered_by c = fillna_empty (raw_Offered_by r) /\
        Domain c = fillna_empty (raw_Domain r) /\
        Duration c = fillna_empty (raw_Duration r) /\
        Price c = PriceCleaning.clean_price to_numeric (raw_Price r) /\
        nth_error (encode_batch (map combined_features t)) i = Some e /\
        nth_error (xb ix) i = Some (normalize norm e).
Proof.
  intros Hpos Hp He.
  destruct (create_succeeds to_numeric price_column_str encode_batch norm
              df_path raw fs Hpos Hp He) as (out & row & rows & E & Hc).
  eexists out, _, _. split; [exact Hc|].
  split; [unfold len; now rewrite process_table_length|].
  split; [cbn [xb]; unfold len; now rewrite length_map, <- E, He|].
  intros i r Hr.
  destruct (process_table_nth to_numeric price_column_str raw i r Hp Hr)
    as (text & Ht).
  assert (Hi : (i < List.length raw)%nat).
  { apply nth_error_Some. congruence. }
  destruct (nth_error (encode_batch
                         (map combined_features
                              (process_table to_numeric price_column_str raw))) i)
    as [e|] eqn:Ee.
  2:{ apply nth_error_None in Ee. lia. }
  eexists _, e. split; [exact Ht|]. repeat split.
  cbn [xb]. rewrite <- E, nth_error_map, Ee. reflexivity.
Qed.

Lemma build_writes_aligned_pair_witness :
  exists out ix t,
    create_and_save_faiss_index PriceCleaning.parse_decimal render_int_column
        encode_batch_e1 norm_one
        "FutureSkills Prime_data.csv" (Stored [raw_python; raw_leadership])
        {| course_index_faiss := Missing; processed_courses_csv := Missing |}
      = (out, (Ok tt, {| course_index_faiss := Stored ix;
                         processed_courses_csv := Stored t |})) /\
    len t = len [raw_python; raw_leadership] /\
    len (xb ix) = len [raw_python; raw_leadership] /\
    forall i r,
      nth_error [raw_python; raw_leadership] i = Some r ->
      exists c e,
        nth_error t i = Some c /\
        Title c = fillna_empty (raw_Title r) /\
        Offered_by c = fillna_empty (raw_Offered_by r) /\
        Domain c = fillna_empty (raw_Domain r) /\
        Duration c = fillna_empty (raw_Duration r) /\
        Price c = PriceCleaning.clean_price PriceCleaning.parse_decimal (raw_Price r) /\
        nth_error (encode_batch_e1 (map combined_features t)) i = Some e /\
        nth_error (xb ix) i = Some (normalize norm_one e).
Proof.
  apply (build_writes_aligned_pair PriceCleaning.parse_decimal render_int_column
           encode_batch_e1 norm_one "FutureSkills Prime_data.csv"
           [raw_python; raw_leadership]
           {| course_index_faiss := Missing; processed_courses_csv := Missing |});
    reflexivity.
Defined.

(** The table the sample build writes. *)
Example sample_build_table :
  process_table PriceCleaning.parse_decimal render_int_column
    [raw_python; raw_leadership]
  = [ {| Title := "Intro to Python"; Offered_by := "Academy"; Domain := "IT";
         Duration := ""; Price := 1000%Q;
         combined_features := "Intro to Python Academy IT  1000" |};
      {| Title := "Advanced Leadership"; Offered_by := ""; Domain := "Management";
         Duration := "2 hours"; Price := 5000%Q;
         combined_features := "Advanced Leadership  Management 2 hours 5000" |} ].
Proof. vm_compute. reflexivity. Qed.


Lemma init_both_stored (ix : IndexFlatL2) (t : DataFrame) :
  init {| course_index_faiss := Stored ix; processed_courses_csv := Stored t |}
  = ([Initializing; LoadedIndex (len (xb ix)); InitializedWith (len t)],
     Ok {| index := Some (as_index ix); df := Some t |}).
Proof. reflexivity. Qed.

(** X12.  After such a build, a recommender constructed from the written
    artifacts is ready, reports the number of dataset rows, and holds an
    index and a table of that size. *)
Theorem recommender_ready_after_build
    (to_numeric : string -> option Q)
    (price_column_str : list Q -> list string)
    (encode_batch : list string -> list (list f32))
    (norm : list f32 -> f32)
    (df_path : string) (raw : list raw_course) (fs : disk) :
  (0 < len raw)%Z ->
  List.length (price_column_str (clean_price_column to_numeric raw))
    = List.length raw ->
  List.length (encode_batch
                 (map combined_features
                      (process_table to_numeric price_column_str raw)))
    = List.length raw ->
  exists out fs' self,
    create_and_save_faiss_index to_numeric price_column_str encode_batch norm
        df_path (Stored raw) fs
      = (out, (Ok tt, fs')) /\
    init fs'
      = ([Initializing; LoadedIndex (len raw); InitializedWith (len raw)],
         Ok self) /\
    is_ready self = true /\
    option_map ntotal (index self) = Some (len raw) /\
    option_map len (df self) = Some (len raw).
Proof.
  intros Hpos Hp He.
  destruct (create_succeeds to_numeric price_column_str encode_batch norm
              df_path raw fs Hpos Hp He) as (out & row & rows & E & Hc).
  assert (Hx : len (map (normalize norm) (row :: rows)) = len raw).
  { unfold len. now rewrite length_map, <- E, He. }
  assert (Ht : len (process_table to_numeric price_column_str raw) = len raw).
  { unfold len. now rewrite process_table_length. }
  eexists out, _, _. split; [exact Hc|].
  rewrite init_both_stored. cbn [xb]. rewrite Hx, Ht.
  split; [reflexivity|]. split; [reflexivity|].
  cbn [index df option_map ntotal as_index xb]. rewrite Hx, Ht.
  split; reflexivity.
Qed.

Lemma recommender_ready_after_build_witness :
  exists out fs' self,
    create_and_save_faiss_index PriceCleaning.parse_decimal render_int_column
        encode_batch_e1 norm_one
        "FutureSkills Prime_data.csv" (Stored [raw_python; raw_leadership])
        {| course_index_faiss := Missing; processed_courses_csv := Missing |}
      = (out, (Ok tt, fs')) /\
    init fs'
      = ([Initializing; LoadedIndex (len [raw_python; raw_leadership]);
          InitializedWith (len [raw_python; raw_leadership])],
         Ok self) /\
    is_ready self = true /\
    option_map ntotal (index self) = Some (len [raw_python; raw_leadership]) /\
    option_map len (df self) = Some (len [raw_python; raw_leadership]).
Proof.
  apply (recommender_ready_after_build PriceCleaning.parse_decimal
           render_int_column encode_batch_e1 norm_one
           "FutureSkills Prime_data.csv" [raw_python; raw_leadership]
           {| course_index_faiss := Missing; processed_courses_csv := Missing |});
    reflexivity.
Defined.

(** X13.  After such a build, when the query encoder gives rows of the
    dimension of the index, the recommender constructed from the written
    artifacts answers every request for [k >= 1] results with exactly
    [k] results, without raising. *)
Theorem recommendations_after_build
    (to_numeric : string -> option Q)
    (price_column_str : list Q -> list string)
    (encode_batch : list string -> list (list f32))
    (encode : string -> list f32)
    (norm : list f32 -> f32)
    (df_path : string) (raw : list raw_course) (fs : disk)
    (query : string) (k : Z) :
  (0 < len raw)%Z ->
  List.length (price_column_str (clean_price_column to_numeric raw))
    = List.length raw ->
  List.length (encode_batch
                 (map combined_features
                      (process_table to_numeric price_column_str raw)))
    = List.length raw ->
  option_map (@List.length f32)
    (hd_error (encode_batch
                 (map combined_features
                      (process_table to_numeric price_column_str raw))))
    = Some (List.length (encode query)) ->
  (0 < k)%Z ->
  exists out fs' self res,
    create_and_save_faiss_index to_numeric price_column_str encode_batch norm
        df_path (Stored raw) fs
      = (out, (Ok tt, fs')) /\
    outcome (init fs') = Ok self /\
    outcome (get_recommendations encode norm self query k) = Ok res /\
    len res = k.
Proof.
  intros Hpos Hp He Hdim Hk.
  destruct (create_succeeds to_numeric price_column_str encode_batch norm
              df_path raw fs Hpos Hp He) as (out & row & rows & E & Hc).
  rewrite E in Hdim. simpl in Hdim. injection Hdim as Hdim.
  set (ix := {| d := List.length row; xb := map (normalize norm) (row :: rows) |}) in *.
  set (t := process_table to_numeric price_column_str raw) in *.
  assert (Hx : len (xb ix) = len raw).
  { unfold len. cbn [xb ix]. now rewrite length_map, <- E, He. }
  assert (Ht : len t = len raw).
  { unfold len, t. now rewrite process_table_length. }
  destruct (SearchClaims.aligned_search_scores encode norm query ix t k)
    as (distances & indices & res & _ & Hl & Hres & Hm); try lia.
  { cbn [d ix]. congruence. }
  exists out,
    {| course_index_faiss := Stored ix; processed_courses_csv := Stored t |},
    {| index := Some (as_index ix); df := Some t |}, res.
  split; [exact Hc|]. split.
  - rewrite init_both_stored. reflexivity.
  - rewrite FacadeProperties.ready_outcome. split; [exact Hres|].
    apply (f_equal (@List.length f32)) in Hm.
    rewrite !length_map in Hm. unfold len. lia.
Qed.

Lemma recommendations_after_build_witness :
  exists out fs' self res,
    create_and_save_faiss_index PriceCleaning.parse_decimal render_int_column
        encode_batch_e1 norm_one
        "FutureSkills Prime_data.csv" (Stored [raw_python; raw_leadership])
        {| course_index_faiss := Missing; processed_courses_csv := Missing |}
      = (out, (Ok tt, fs')) /\
    outcome (init fs') = Ok self /\
    outcome (get_recommendations encode_e1 norm_one self "python programming" 3)
      = Ok res /\
    len res = 3%Z.
Proof.
  apply (recommendations_after_build PriceCleaning.parse_decimal
           render_int_column encode_batch_e1 encode_e1 norm_one
           "FutureSkills Prime_data.csv" [raw_python; raw_leadership]
           {| course_index_faiss := Missing; processed_courses_csv := Missing |}
           "python programming" 3);
    reflexivity.
Defined.

End BuildProperties.

(* ================================================================== *)
(** * The detailed display *)
(* ================================================================== *)

Module DisplayProperties.

Import Display.







End DisplayProperties.

(* ================================================================== *)
(** * The scripts *)
(* ================================================================== *)

Module ScriptProperties.

Import Faiss SearchFacts Samples Build BuildSamples Scripts.





Section Loops.

Variable encode : string -> list f32.
Variable norm : list f32 -> f32.

Lemma demo_loop_cons self query rest :
  demo_loop encode norm self (query :: rest)
  = let head :=
      [DemoLine QueryBlankRule; DemoLine (QueryIs query); DemoLine QueryRule] in
    match get_recommendations encode norm self query 5 with
    | (out, Raise e) => (head ++ map LibLine out, Raise e)
    | (out, Ok recommendations) =>
        let shown :=
          match recommendations with
          | [] => []
          | _ => DemoLine (TopThreeFor query)
                 :: demo_hits 1 (firstn 3 recommendations)
          end in
        let (out', r) := demo_loop encode norm self rest in
        (head ++ map LibLine out ++ shown ++ [DemoLine DemoDashRule] ++ out', r)
    end.
Proof. reflexivity. Qed.




Lemma demo_loop_returns self queries :
  snd (demo_loop encode norm self queries) = Ok tt
  <-> Forall (fun q => returns (get_recommendations encode norm self q 5))
             queries.
Proof.
  induction queries as [|query rest IH]; [split; [constructor|reflexivity]|].
  rewrite demo_loop_cons. cbv zeta. unfold returns, outcome in *.
  destruct (get_recommendations encode norm self query 5) as [out [recs|e]] eqn:E.
  - destruct (demo_loop encode norm self rest) as [out' r]. cbn [snd] in *.
    rewrite IH. split.
    + intro H. constructor; [|exact H]. rewrite E. now exists recs.
    + intro H. now inversion H.
  - cbn [snd]. split; [discriminate|].
    intro H. inversion H as [|? ? [a Ha] ?]; subst.
    rewrite E in Ha. discriminate.
Qed.

Lemma demo_loop_raises self queries e :
  snd (demo_loop encode norm self queries) = Raise e
  <-> exists before query rest,
        queries = before ++ query :: rest /\
        Forall (fun q => returns (get_recommendations encode norm self q 5))
               before /\
        outcome (get_recommendations encode norm self query 5) = Raise e.
Proof.
  induction queries as [|query rest IH].
  - split; [discriminate|]. intros ([|? ?] & ? & ? & H & _); discriminate.
  - rewrite demo_loop_cons. cbv zeta. unfold returns, outcome in *.
    destruct (get_recommendations encode norm self query 5)
      as [out [recs|e']] eqn:E.
    + destruct (demo_loop encode norm self rest) as [out' r]. cbn [snd] in *.
      rewrite IH. split.
      * intros (before & q & rest' & -> & Hb & Hq).
        exists (query :: before), q, rest'. split; [reflexivity|].
        split; [|exact Hq]. constructor; [|exact Hb].
        rewrite E. now exists recs.
      * intros ([|q0 before] & q & rest' & Heq & Hb & Hq);
          injection Heq as -> ->.
        -- rewrite E in Hq. discriminate.
        -- exists before, q, rest'. split; [reflexivity|].
           split; [now inversion Hb|exact Hq].
    + cbn [snd]. split.
      * intro H. injection H as ->. exists [], query, rest.
        split; [reflexivity|]. split; [constructor|]. now rewrite E.
      * intros ([|q0 before] & q & rest' & Heq & Hb & Hq);
          injection Heq as -> ->.
        -- rewrite E in Hq. cbn [snd] in Hq. injection Hq as ->. reflexivity.
        -- inversion Hb as [|? ? [a Ha] ?]; subst.
           rewrite E in Ha. discriminate.
Qed.

Lemma test_loop_cons self i query rest :
  test_loop encode norm self i (query :: rest)
  = match get_recommendations encode norm self query 3 with
    | (out, Raise e) =>
        (TestLine (TestQuery i query) :: map LibLine out
           ++ [TestLine (ErrorDuringSearch e)],
         false)
    | (out, Ok recommendations) =>
        let found :=
          match recommendations with
          | [] => [TestLine TestNoRecommendations]
          | _ => TestLine (TestFound (len recommendations))
                 :: test_hits 1 recommendations
          end in
        let (out', passed) := test_loop encode norm self (i + 1) rest in
        (TestLine (TestQuery i query) :: map LibLine out ++ found ++ out',
         passed)
    end.
Proof. reflexivity. Qed.

Lemma test_loop_passes self i queries :
  snd (test_loop encode norm self i queries) = true
  <-> Forall (fun q => returns (get_recommendations encode norm self q 3))
             queries.
Proof.
  revert i. induction queries as [|query rest IH]; intro i;
    [split; [constructor|reflexivity]|].
  rewrite test_loop_cons. cbv zeta. unfold returns, outcome in *.
  destruct (get_recommendations encode norm self query 3) as [out [recs|e]] eqn:E.
  - specialize (IH (i + 1)%Z).
    destruct (test_loop encode norm self (i + 1) rest) as [out' r].
    cbn [snd] in *. rewrite IH. split.
    + intro H. constructor; [|exact H]. rewrite E. now exists recs.
    + intro H. now inversion H.
  - cbn [snd]. split; [discriminate|].
    intro H. inversion H as [|? ? [a Ha] ?]; subst.
    rewrite E in Ha. discriminate.
Qed.

Lemma init_returns fs : exists out self, init fs = (out, Ok self).
Proof.
  unfold init, bind, print, load_faiss_index, try_except, lift, ret.
  destruct fs as [[| |ix] [| |t]]; cbn; eauto.
Qed.


Lemma test_recommender_passes fs :
  snd (test_recommender encode norm fs) = true
  <-> exists self,
        outcome (init fs) = Ok self /\
        is_ready self = true /\
        Forall (fun q => returns (get_recommendations encode norm self q 3))
               test_queries.
Proof.
  unfold test_recommender, outcome.
  destruct (init fs) as [out [self|e]]; cbn [snd].
  - destruct (is_ready self) eqn:R; cbn [negb].
    + pose proof (test_loop_passes self 1 test_queries) as H.
      destruct (test_loop encode norm self 1 test_queries) as [out' passed].
      cbn [snd] in *. rewrite H. split.
      * intro F. exists self. auto.
      * intros (self' & E & _ & F). injection E as <-. exact F.
    + cbn [snd]. split; [discriminate|].
      intros (self' & E & R' & _). injection E as <-. congruence.
  - split; [discriminate|]. intros (self' & E & _). discriminate.
Qed.

(** A recommender over a non-empty table aligned with a flat index
    answers [k >= 1] with [k] results. *)
Lemma aligned_recommender_answers (ix : IndexFlatL2) (t : DataFrame) query k :
  (0 < len t)%Z ->
  len t = len (xb ix) ->
  (0 < k)%Z ->
  List.length (encode query) = d ix ->
  exists res,
    outcome (get_recommendations encode norm
               {| index := Some (as_index ix); df := Some t |} query k)
      = Ok res /\
    len res = k.
Proof.
  intros Hpos Hal Hk Hd.
  destruct (SearchClaims.aligned_search_scores encode norm query ix t k
              Hpos Hal Hk Hd)
    as (distances & indices & res & _ & Hl & Hres & Hm).
  exists res. rewrite FacadeProperties.ready_outcome. split; [exact Hres|].
  apply (f_equal (@List.length f32)) in Hm.
  rewrite !length_map in Hm. unfold len. lia.
Qed.


Lemma test_recommender_aligned (ix : IndexFlatL2) (t : DataFrame) :
  (0 < len t)%Z ->
  len t = len (xb ix) ->
  (forall q, List.length (encode q) = d ix) ->
  snd (test_recommender encode norm
         {| course_index_faiss := Stored ix; processed_courses_csv := Stored t |})
  = true.
Proof.
  intros Hpos Hal Hd. apply test_recommender_passes.
  exists {| index := Some (as_index ix); df := Some t |}.
  rewrite BuildProperties.init_both_stored. split; [reflexivity|]. split; [reflexivity|].
  apply Forall_forall. intros q _.
  destruct (aligned_recommender_answers ix t q 3 Hpos Hal eq_refl (Hd q))
    as (res & E & _).
  now exists res.
Qed.

End Loops.




(** X17.  [test_system] returns [True] exactly when the dataset file
    exists, both artifacts exist or their build does not raise, the
    recommender constructed from the artifacts is ready, and none of the
    five test searches (top 3) raises.  It does not look at the results:
    empty result lists pass. *)
Theorem test_system_passes_iff
    (to_numeric : string -> option Q)
    (price_column_str : list Q -> list string)
    (encode_batch : list string -> list (list f32))
    (encode : string -> list f32)
    (norm : list f32 -> f32)
    (ws : workspace) :
  fst (snd (test_system to_numeric price_column_str encode_batch encode norm ws))
    = true
  <->
  exists_file (dataset ws) = true /\
  exists fs self,
    (artifact_missing (artifacts ws) = false /\ fs = artifacts ws \/
     artifact_missing (artifacts ws) = true /\
     exists out,
       create_and_save_faiss_index to_numeric price_column_str encode_batch
         norm csv_path (dataset ws) (artifacts ws)
       = (out, (Ok tt, fs))) /\
    outcome (init fs) = Ok self /\
    is_ready self = true /\
    Forall (fun q => returns (get_recommendations encode norm self q 3))
           test_queries.
Proof.
  unfold test_system.
  destruct (exists_file (dataset ws)); cbn [negb].
  2:{ cbn [snd fst]. split; [discriminate|]. intros [H _]. discriminate. }
  destruct (artifact_missing (artifacts ws)).
  - destruct (create_and_save_faiss_index _ _ _ _ _ _ _)
      as [out [[[]|e] fs]].
    + pose proof (test_recommender_passes encode norm fs) as H.
      destruct (test_recommender encode norm fs) as [out' passed].
      cbn [fst snd] in *. rewrite H. split.
      * intros (self & Hi & Hr & F). split; [reflexivity|].
        exists fs, self. split; [right; split; [reflexivity|now exists out]|].
        auto.
      * intros (_ & fs' & self & [[Hm _]|[_ [out0 Hc]]] & Hi & Hr & F);
          [discriminate|].
        injection Hc as _ <-. exists self. auto.
    + cbn [fst snd]. split; [discriminate|].
      intros (_ & fs' & self & [[Hm _]|[_ [out0 Hc]]] & _); discriminate.
  - pose proof (test_recommender_passes encode norm (artifacts ws)) as H.
    destruct (test_recommender encode norm (artifacts ws)) as [out' passed].
    cbn [fst snd] in *. rewrite H. split.
    + intros (self & Hi & Hr & F). split; [reflexivity|].
      exists (artifacts ws), self. split; [left; split; reflexivity|]. auto.
    + intros (_ & fs' & self & [[_ ->]|[Hm _]] & Hi & Hr & F);
        [|discriminate].
      exists self. auto.
Qed.

(** X18.  In a workspace that lacks an artifact and holds a non-empty
    dataset (one price text and one encoded row per dataset row, query
    encoder of the dimension of those rows), [test_system] builds the
    artifacts and returns [True]; run again in the workspace it leaves,
    it finds both artifacts, leaves the workspace as it is and returns
    [True] again. *)
Theorem test_system_passes_after_build_and_again
    (to_numeric : string -> option Q)
    (price_column_str : list Q -> list string)
    (encode_batch : list string -> list (list f32))
    (encode : string -> list f32)
    (norm : list f32 -> f32)
    (raw : list raw_course) (fs : disk) :
  artifact_missing fs = true ->
  (0 < len raw)%Z ->
  List.length (price_column_str (clean_price_column to_numeric raw))
    = List.length raw ->
  List.length (encode_batch
                 (map combined_features
                      (process_table to_numeric price_column_str raw)))
    = List.length raw ->
  (forall q,
     option_map (@List.length f32)
       (hd_error (encode_batch
                    (map combined_features
                         (process_table to_numeric price_column_str raw))))
     = Some (List.length (encode q))) ->
  exists out ws' out',
    test_system to_numeric price_column_str encode_batch encode norm
      {| dataset := Stored raw; artifacts := fs |}
    = (out, (true, ws')) /\
    artifact_missing (artifacts ws') = false /\
    test_system to_numeric price_column_str encode_batch encode norm ws'
    = (out', (true, ws')).
Proof.
  intros Hmiss Hpos Hp He Hdim.
  destruct (BuildProperties.create_succeeds to_numeric price_column_str
              encode_batch norm csv_path raw fs Hpos Hp He)
    as (out & row & rows & E & Hc).
  rewrite E in Hdim. cbn [hd_error option_map] in Hdim.
  set (ix := {| d := List.length row; xb := map (normalize norm) (row :: rows) |}) in *.
  set (t := process_table to_numeric price_column_str raw) in *.
  assert (Hx : len (xb ix) = len raw).
  { unfold len. cbn [xb ix]. now rewrite length_map, <- E, He. }
  assert (Ht : len t = len raw).
  { unfold len, t. now rewrite BuildProperties.process_table_length. }
  assert (Hpass : snd (test_recommender encode norm
                         {| course_index_faiss := Stored ix;
                            processed_courses_csv := Stored t |}) = true).
  { apply test_recommender_aligned; try lia.
    intro q. specialize (Hdim q). cbn [d ix]. congruence. }
  destruct (test_recommender encode norm _) as [out' passed] eqn:Et.
  cbn [snd] in Hpass. subst passed.
  eexists.
  exists {| dataset := Stored raw;
            artifacts := {| course_index_faiss := Stored ix;
                            processed_courses_csv := Stored t |} |}.
  eexists. split; [|split; [reflexivity|]].
  - unfold test_system. cbn [artifacts dataset exists_file negb].
    rewrite Hmiss, Hc, Et. reflexivity.
  - unfold test_system. cbn [artifacts dataset exists_file negb].
    change (artifact_missing _) with false. cbv iota.
    rewrite Et. reflexivity.
Qed.

Lemma test_system_passes_after_build_and_again_witness :
  exists out ws' out',
    test_system PriceCleaning.parse_decimal render_int_column encode_batch_e1
      encode_e1 norm_one
      {| dataset := Stored [raw_python; raw_leadership];
         artifacts := {| course_index_faiss := Missing;
                         processed_courses_csv := Missing |} |}
    = (out, (true, ws')) /\
    artifact_missing (artifacts ws') = false /\
    test_system PriceCleaning.parse_decimal render_int_column encode_batch_e1
      encode_e1 norm_one ws'
    = (out', (true, ws')).
Proof.
  apply (test_system_passes_after_build_and_again
           PriceCleaning.parse_decimal render_int_column encode_batch_e1
           encode_e1 norm_one [raw_python; raw_leadership]
           {| course_index_faiss := Missing; processed_courses_csv := Missing |});
    reflexivity.
Defined.

(** X19.  When both artifacts exist, [main] does not catch what a search
    raises: it ends with exception [e], the workspace untouched, exactly
    when the recommender is ready and the first example query whose
    search (top 5) raises, raises [e]. *)
Theorem main_raises_what_the_first_failing_search_raises
    (to_numeric : string -> option Q)
    (price_column_str : list Q -> list string)
    (encode_batch : list string -> list (list f32))
    (encode : string -> list f32)
    (norm : list f32 -> f32)
    (ws : workspace) (e : exn) :
  artifact_missing (artifacts ws) = false ->
  snd (main to_numeric price_column_str encode_batch encode norm ws)
    = (Raise e, ws)
  <->
  exists self before query rest,
    outcome (init (artifacts ws)) = Ok self /\
    is_ready self = true /\
    example_queries = before ++ query :: rest /\
    Forall (fun q => returns (get_recommendations encode norm self q 5))
           before /\
    outcome (get_recommendations encode norm self query 5) = Raise e.
Proof.
  intro Hm. unfold main. rewrite Hm. unfold demo, outcome.
  destruct (init_returns (artifacts ws)) as (out & self & ->). cbn [snd].
  destruct (is_ready self) eqn:R; cbn [negb].
  - pose proof (demo_loop_raises encode norm self example_queries e) as H.
    destruct (demo_loop encode norm self example_queries) as [out' r].
    cbn [snd] in *. split.
    + intro Hr. injection Hr as ->.
      destruct (proj1 H eq_refl) as (before & query & rest & Hq & Hb & He).
      exists self, before, query, rest. auto.
    + intros (self' & before & query & rest & Hi & _ & Hq & Hb & He).
      injection Hi as <-. f_equal. apply H. exists before, query, rest. auto.
  - split; [discriminate|].
    intros (self' & before & query & rest & Hi & R' & _).
    injection Hi as <-. congruence.
Qed.

Lemma main_raises_what_the_first_failing_search_raises_witness :
  snd (main PriceCleaning.parse_decimal render_int_column encode_batch_e1
         encode_e1 norm_one
         {| dataset := Missing;
            artifacts := {| course_index_faiss := Stored {| d := 2; xb := [] |};
                            processed_courses_csv := Stored [] |} |})
    = (Raise IndexError,
       {| dataset := Missing;
          artifacts := {| course_index_faiss := Stored {| d := 2; xb := [] |};
                          processed_courses_csv := Stored [] |} |})
  <->
  exists self before query rest,
    outcome (init {| course_index_faiss := Stored {| d := 2; xb := [] |};
                     processed_courses_csv := Stored [] |}) = Ok self /\
    is_ready self = true /\
    example_queries = before ++ query :: rest /\
    Forall (fun q => returns (get_recommendations encode_e1 norm_one self q 5))
           before /\
    outcome (get_recommendations encode_e1 norm_one self query 5)
      = Raise IndexError.
Proof.
  apply (main_raises_what_the_first_failing_search_raises
           PriceCleaning.parse_decimal render_int_column encode_batch_e1
           encode_e1 norm_one
           {| dataset := Missing;
              artifacts := {| course_index_faiss := Stored {| d := 2; xb := [] |};
                              processed_courses_csv := Stored [] |} |}
           IndexError).
  reflexivity.
Defined.

Example main_on_empty_artifacts_raises :
  snd (main PriceCleaning.parse_decimal render_int_column encode_batch_e1
         encode_e1 norm_one
         {| dataset := Missing;
            artifacts := {| course_index_faiss := Stored {| d := 2; xb := [] |};
                            processed_courses_csv := Stored [] |} |})
  = (Raise IndexError,
     {| dataset := Missing;
        artifacts := {| course_index_faiss := Stored {| d := 2; xb := [] |};
                        processed_courses_csv := Stored [] |} |}).
Proof. reflexivity. Qed.

End ScriptProperties.
